(** * medium-tcp-broken-pipe: the Go backend, its reverse proxy and its image

    A shallow embedding of [server.go], [nginx.conf] and the server image
    recipe.  The handler is written in a small state monad over a [World]
    that carries a clock, the connection the response goes to and the
    history of what the handler did; the Go and nginx library behaviour the
    code relies on ([time.Sleep], [text/template], [net/http], the TCP link
    and the proxy timeouts) is modelled next to it and documented where it
    idealises.  What the steps of the handler cost on the clock is left to
    the [Machine] the backend runs on. *)

From Stdlib Require Import ZArith List Strings.String Strings.Ascii Strings.Byte Bool Lia.
Import ListNotations.

Local Open Scope Z_scope.

(** ** Go runtime values *)

(** [time.Duration] is an [int64] count of nanoseconds.  Every duration of
    this program is a compile-time constant inside the [int64] range (see
    [durations_in_int64]), so no wrap-around occurs. *)
Module time.
Definition Duration : Type := Z.
Definition Nanosecond : Duration := 1.
Definition Microsecond : Duration := 1000 * Nanosecond.
Definition Millisecond : Duration := 1000 * Microsecond.
Definition Second : Duration := 1000 * Millisecond.
Definition Minute : Duration := 60 * Second.
End time.

Definition int64_range (z : Z) : bool := (- 2 ^ 63 <=? z) && (z <? 2 ^ 63).

(** The [error] interface, seen through its [Error()] text. *)
Definition error : Type := string.

(** A Go [string] and a [[]byte] are both byte sequences; the conversion
    [string(b)] copies the bytes unchanged. *)
Definition bytes_to_string (b : list byte) : list byte := b.

(** [make([]byte, n)]: a slice of [n] zero bytes. *)
Definition make_bytes (n : Z) : list byte := repeat x00 (Z.to_nat n).

(** [len] of a slice, as a Go [int]. *)
Definition len (p : list byte) : Z := Z.of_nat (List.length p).

(** [fmt.Sprintf] on the formats of this program: a format whose only
    percent sign is that of its one [%s] verb, and one operand, which takes
    the place of the verb.  Other verbs and [%%] are not interpreted. *)
Fixpoint Sprintf (format : string) (arg : string) : string :=
  match format with
  | EmptyString => EmptyString
  | String "%"%char (String "s"%char rest) => (arg ++ rest)%string
  | String c rest => String c (Sprintf rest arg)
  end.

(** ** What a handler does: events, the world, the monad *)

Inductive Event : Type :=
| EvSleep (d : time.Duration)                          (* time.Sleep(d) *)
| EvMake (n : Z)                                       (* make([]byte, n) *)
| EvParse (name : string) (err : option error)         (* template Parse *)
| EvWrite (at_ : Z) (p : list byte) (n : Z) (err : option error)
                                    (* w.Write(p) = n, err, called at [at_] *)
| EvLog (line : string)                                (* log.Printf *)
| EvRedirect (location : string)     (* the answer of http.RedirectHandler *)
| EvBadRequest.                      (* the answer 400 to the asterisk form *)

(** What one [Write] call on a connection gives back: the connection
    afterwards, the count [n] of bytes accepted, the error, and the time the
    call blocked. *)
Record WriteResult (C : Type) : Type := mkWriteResult {
  wr_conn : C;
  wr_n : Z;
  wr_err : option error;
  wr_elapsed : time.Duration
}.
Arguments mkWriteResult {C}.
Arguments wr_conn {C}.
Arguments wr_n {C}.
Arguments wr_err {C}.
Arguments wr_elapsed {C}.

(** [http.ResponseWriter], reduced to its [Write] method, with the contract
    of [io.Writer]: [0 <= n <= len(p)], and a short write carries an error. *)
Class ResponseWriter (C : Type) : Type := {
  Write : C -> Z -> list byte -> WriteResult C;
  Write_n_range : forall c t p, 0 <= wr_n (Write c t p) <= len p;
  Write_short : forall c t p,
      wr_n (Write c t p) < len p -> wr_err (Write c t p) <> None;
  Write_elapsed : forall c t p, 0 <= wr_elapsed (Write c t p)
}.

(** The machine the backend runs on: what the steps of the handler that
    touch no connection cost on the clock.  [time.Sleep(d)] pauses for at
    least [d]: [sleepOver d] is by how much it overshoots.  Building the
    buffer and parsing it take time as well, seconds for the buffer of
    [main]. *)
Class Machine : Type := {
  sleepOver : time.Duration -> time.Duration;
  makeCost : Z -> time.Duration;            (* make([]byte, n) *)
  parseCost : list byte -> time.Duration;   (* string(tpl) and its Parse *)
  sleepOver_nonneg : forall d, 0 <= sleepOver d;
  makeCost_nonneg : forall n, 0 <= makeCost n;
  parseCost_nonneg : forall text, 0 <= parseCost text
}.

Record World (C : Type) : Type := mkWorld {
  now : Z;                 (* the clock, in nanoseconds *)
  conn : C;                (* the connection behind the ResponseWriter *)
  history : list Event     (* what has been done so far, oldest first *)
}.
Arguments mkWorld {C}.
Arguments now {C}.
Arguments conn {C}.
Arguments history {C}.

Definition M (C A : Type) : Type := World C -> A * World C.

Definition ret {C A : Type} (a : A) : M C A := fun w => (a, w).

Definition bind {C A B : Type} (m : M C A) (k : A -> M C B) : M C B :=
  fun w => let (a, w') := m w in k a w'.

Notation "x <- m ;; k" := (bind m (fun x => k))
  (at level 61, m at next level, right associativity).
Notation "m ;;; k" := (bind m (fun _ => k))
  (at level 61, right associativity).

Definition run {C A : Type} (m : M C A) (w : World C) : World C := snd (m w).

(** Observations on a history. *)
Definition logLines (h : list Event) : list string :=
  flat_map (fun e => match e with EvLog l => [l] | _ => [] end) h.

(** The [Write] calls: the instant of the call, the bytes offered, the
    count accepted and the error. *)
Definition writeCalls (h : list Event) : list (Z * list byte * Z * option error) :=
  flat_map (fun e => match e with
                     | EvWrite t p n err => [(t, p, n, err)]
                     | _ => []
                     end) h.

(** The bytes the writer accepted, in order: the response body. *)
Definition bodyWritten (h : list Event) : list byte :=
  flat_map (fun e => match e with
                     | EvWrite _ p n _ => firstn (Z.to_nat n) p
                     | _ => []
                     end) h.

(** ** Decimal numbers, addresses and paths *)

Definition digit (c : ascii) : option Z :=
  let n := Z.of_nat (nat_of_ascii c) in
  if (48 <=? n) && (n <=? 57) then Some (n - 48) else None.

(** An unsigned decimal number: one digit at least, digits only. *)
Fixpoint parseUint (s : string) (acc : option Z) : option Z :=
  match s with
  | EmptyString => acc
  | String c rest =>
      match digit c with
      | Some d => parseUint rest (Some (10 * match acc with Some a => a | None => 0 end + d))
      | None => None
      end
  end.

Fixpoint hasChar (c : ascii) (s : string) : bool :=
  match s with
  | EmptyString => false
  | String a rest => Ascii.eqb a c || hasChar c rest
  end.

(** The offset of the first [c] of [s]. *)
Fixpoint indexOf (c : ascii) (s : string) : option nat :=
  match s with
  | EmptyString => None
  | String a rest =>
      if Ascii.eqb a c then Some 0%nat else option_map S (indexOf c rest)
  end.

(** The offset of the last [c] of [s]. *)
Fixpoint lastIndexOf (c : ascii) (s : string) : option nat :=
  match s with
  | EmptyString => None
  | String a rest =>
      match lastIndexOf c rest with
      | Some i => Some (S i)
      | None => if Ascii.eqb a c then Some 0%nat else None
      end
  end.

(** The rest of [s] from the offset [n] on, Go's [s[n:]]. *)
Definition from (n : nat) (s : string) : string :=
  String.substring n (String.length s - n) s.

(** [net.SplitHostPort]; [None] for its errors.  The port is what follows
    the last colon; a host in brackets has them stripped and must end just
    before that colon; a host without brackets holds no colon; no other
    bracket is allowed. *)
Definition SplitHostPort (hostport : string) : option (string * string) :=
  match lastIndexOf ":" hostport with
  | None => None
  | Some i =>
      match hostport with
      | EmptyString => None
      | String first rest =>
          if Ascii.eqb first "[" then
            match indexOf "]" hostport with
            | None => None
            | Some e =>
                if (S e =? i)%nat then
                  if hasChar "[" rest || hasChar "]" (from (S e) hostport)
                  then None
                  else Some (String.substring 1 (e - 1) hostport,
                             from (S i) hostport)
                else None
            end
          else
            let host := String.substring 0 i hostport in
            if hasChar ":" host || hasChar "[" hostport || hasChar "]" hostport
            then None
            else Some (host, from (S i) hostport)
      end
  end.

(** [stripHostPort] of net/http: the host without its port, the text
    unchanged when it holds no colon or does not split. *)
Definition stripHostPort (h : string) : string :=
  if hasChar ":" h then
    match SplitHostPort h with
    | Some (host, _) => host
    | None => h
    end
  else h.

(** The elements of a path: the texts between its slashes. *)
Fixpoint elements (p : string) (cur : string) : list string :=
  match p with
  | EmptyString => [cur]
  | String c rest =>
      if Ascii.eqb c "/" then cur :: elements rest ""
      else elements rest (cur ++ String c EmptyString)
  end.

(** One element more on the elements kept so far, the last one first: an
    empty element and [.] are dropped, [..] takes the last one back. *)
Definition cleanStep (kept : list string) (el : string) : list string :=
  if String.eqb el "" || String.eqb el "." then kept
  else if String.eqb el ".." then tl kept
  else el :: kept.

Fixpoint joinSlash (els : list string) : string :=
  match els with
  | [] => EmptyString
  | [e] => e
  | e :: rest => (e ++ "/" ++ joinSlash rest)%string
  end.

(** [path.Clean] on a rooted path. *)
Definition cleanRooted (p : string) : string :=
  String "/" (joinSlash (rev (fold_left cleanStep (elements p "") []))).

Definition lastIsSlash (s : string) : bool :=
  match String.get (Nat.pred (String.length s)) s with
  | Some c => Ascii.eqb c "/"
  | None => false
  end.

(** [cleanPath] of net/http: the canonical form of a request path, rooted,
    without [.], [..] or doubled slashes, its closing slash kept. *)
Definition cleanPath (p : string) : string :=
  match p with
  | EmptyString => "/"%string
  | String c _ =>
      let p := if Ascii.eqb c "/" then p else String "/" p in
      let np := cleanRooted p in
      if lastIsSlash p && negb (String.eqb np "/") then (np ++ "/")%string
      else np
  end.

(** ** [net/http] requests and the [ServeMux] routing table *)

Record Request : Type := mkRequest {
  Method : string;
  Host : string;
  Path : string;           (* the path of r.URL, as the routing reads it *)
  Body : list byte
}.

(** The routing table as net/http has it before Go 1.22: patterns are
    plain texts, a path or a host followed by a path, without methods or
    wildcards.  For a table that holds only "/", as the one of [main] does,
    the later versions route the same way. *)
Module http.
Section Mux.
Variable H : Type.       (* the handlers *)

Record muxEntry : Type := mkEntry { pattern : string; h : H }.

(** The registered entries, in registration order. *)
Definition ServeMux : Type := list muxEntry.

Definition NewServeMux : ServeMux := [].

Definition registered (mux : ServeMux) (pat : string) : bool :=
  existsb (fun e => String.eqb (pattern e) pat) mux.

(** [mux.HandleFunc(pattern, handler)]; [None] is the panic Go raises for
    an empty pattern or a pattern registered twice.  From Go 1.22 on a
    pattern is parsed, and one that does not parse or that conflicts with a
    registered one panics as well; "/" does neither. *)
Definition HandleFunc (mux : ServeMux) (pat : string) (handler : H)
  : option ServeMux :=
  if String.eqb pat "" then None
  else if registered mux pat then None
  else Some (mux ++ [mkEntry pat handler]).

Definition endsWithSlash (s : string) : bool :=
  match String.get (Nat.pred (String.length s)) s with
  | Some c => Ascii.eqb c "/"
  | None => false
  end.

Definition exactEntry (mux : ServeMux) (path : string) : option muxEntry :=
  find (fun e => String.eqb (pattern e) path) mux.

(** The longest pattern ending in a slash that is a prefix of the path. *)
Fixpoint longestPrefix (mux : ServeMux) (path : string) (best : option muxEntry)
  : option muxEntry :=
  match mux with
  | [] => best
  | e :: rest =>
      let better :=
        match best with
        | None => true
        | Some b => (String.length (pattern b) <? String.length (pattern e))%nat
        end in
      if endsWithSlash (pattern e) && String.prefix (pattern e) path && better
      then longestPrefix rest path (Some e)
      else longestPrefix rest path best
  end.

(** [ServeMux.match]: an exact match first, then the longest subtree
    pattern, the patterns taken as plain texts.  The request method is no
    input of the lookup. *)
Definition match_ (mux : ServeMux) (path : string) : option muxEntry :=
  match exactEntry mux path with
  | Some e => Some e
  | None => longestPrefix mux path None
  end.

Definition hosts (mux : ServeMux) : bool :=
  existsb (fun e => match String.get 0 (pattern e) with
                    | Some c => negb (Ascii.eqb c "/")
                    | None => false
                    end) mux.

(** [ServeMux.handler(host, path)]: host-specific patterns take
    precedence; [None] stands for [NotFoundHandler]. *)
Definition handler (mux : ServeMux) (host path : string) : option muxEntry :=
  match (if hosts mux then match_ mux (host ++ path)%string else None) with
  | Some e => Some e
  | None => match_ mux path
  end.

(** Where a request goes: to an entry of the table, to a redirect, or to
    the not-found handler. *)
Inductive Route : Type :=
| Routed (e : muxEntry)
| Redirect (location : string)
| NotFound.

Definition ofEntry (o : option muxEntry) : Route :=
  match o with
  | Some e => Routed e
  | None => NotFound
  end.

(** [shouldRedirectRLocked]: the path is not registered, neither alone nor
    after the host, but it is with a slash more. *)
Definition shouldRedirect (mux : ServeMux) (host path : string) : bool :=
  if registered mux path || registered mux (host ++ path) then false
  else if String.eqb path "" then false
  else if registered mux (path ++ "/") || registered mux (host ++ path ++ "/")
       then negb (endsWithSlash path)
       else false.

(** [ServeMux.Handler(r)]: a [CONNECT] request is looked up as it is; for
    any other the host loses its port and the path is cleaned, and a path
    that cleaning changes is answered with a redirect to the clean path.
    The query of the URL, which the redirect carries along, is not
    modelled. *)
Definition route (mux : ServeMux) (r : Request) : Route :=
  if String.eqb (Method r) "CONNECT" then
    if shouldRedirect mux (Host r) (Path r)
    then Redirect (Path r ++ "/")
    else ofEntry (handler mux (Host r) (Path r))
  else
    let host := stripHostPort (Host r) in
    let path := cleanPath (Path r) in
    if shouldRedirect mux host path then Redirect (path ++ "/")
    else if negb (String.eqb path (Path r)) then Redirect path
    else ofEntry (handler mux host (Path r)).
End Mux.
End http.

Arguments http.mkEntry {H}.
Arguments http.pattern {H}.
Arguments http.h {H}.
Arguments http.HandleFunc {H}.
Arguments http.match_ {H}.
Arguments http.handler {H}.
Arguments http.route {H}.
Arguments http.Routed {H}.
Arguments http.Redirect {H}.
Arguments http.NotFound {H}.

Record Server (H : Type) : Type := mkServer {
  ReadTimeout : time.Duration;
  WriteTimeout : time.Duration;
  Addr : string;
  Handler : http.ServeMux H
}.
Arguments mkServer {H}.
Arguments ReadTimeout {H}.
Arguments WriteTimeout {H}.
Arguments Addr {H}.
Arguments Handler {H}.

(** ** [strings.Index] and the skeleton of [text/template] *)

Fixpoint HasPrefix (s prefix : list byte) : bool :=
  match prefix with
  | [] => true
  | b :: prefix' =>
      match s with
      | [] => false
      | c :: s' => Byte.eqb c b && HasPrefix s' prefix'
      end
  end.

(** [strings.Index(s, substr)]; [None] for Go's [-1]. *)
Fixpoint Index (s substr : list byte) : option nat :=
  if HasPrefix s substr then Some 0%nat
  else match s with
       | [] => None
       | _ :: s' => option_map S (Index s' substr)
       end.

(** The default left action delimiter, two opening braces. *)
Definition leftDelim : list byte := [x7b; x7b].

(** A parsed template is a list of nodes: literal text, or an action.  What
    an action is, how the text from the first left delimiter on is parsed and
    what an action evaluates to are left to the parameters of the section
    [TextTemplate] below. *)
Inductive Node (Action : Type) : Type :=
| TextNode (text : list byte)
| ActionNode (a : Action).
Arguments TextNode {Action}.
Arguments ActionNode {Action}.

Record Template (Action : Type) : Type := mkTemplate {
  Name : string;
  Root : list (Node Action)
}.
Arguments mkTemplate {Action}.
Arguments Name {Action}.
Arguments Root {Action}.

(** ** The backend: [server.go] *)

(** [time.Second * 10], the argument of [time.Sleep] (server.go:13). *)
Definition sleepDuration : time.Duration := time.Second * 10.

(** [size := 900 * 1000 * 1000] (server.go:17). *)
Definition size : Z := 900 * 1000 * 1000.

Definition errOf {A : Type} (res : A + error) : option error :=
  match res with
  | inl _ => None
  | inr e => Some e
  end.

Section Backend.
Context {C : Type} {RW : ResponseWriter C} {MC : Machine}.

Definition record (e : Event) : M C unit :=
  fun w => (tt, mkWorld (now w) (conn w) (history w ++ [e])).

(** [time.Sleep(d)] pauses for at least [d], nothing of it for [d <= 0]:
    for [d] and what the machine overshoots. *)
Definition Sleep (d : time.Duration) : M C unit :=
  fun w => (tt, mkWorld (now w + Z.max 0 d + sleepOver d) (conn w)
                        (history w ++ [EvSleep d])).

(** [make([]byte, n)], at the cost of the machine. *)
Definition make (n : Z) : M C (list byte) :=
  fun w => (make_bytes n, mkWorld (now w + makeCost n) (conn w)
                                  (history w ++ [EvMake n])).

(** [log.Printf(format, arg)]: one line on the log (the date prefix the
    logger puts in front is left out). *)
Definition Printf (format : string) (arg : string) : M C unit :=
  record (EvLog (Sprintf format arg)).

(** [w.Write(p)]: the call takes [wr_elapsed] of the clock. *)
Definition wWrite (p : list byte) : M C (WriteResult C) :=
  fun w =>
    let r := Write (conn w) (now w) p in
    (r, mkWorld (now w + wr_elapsed r) (wr_conn r)
                (history w ++ [EvWrite (now w) p (wr_n r) (wr_err r)])).

(** *** The handler, over any template package *)
Section Handler.
Variable Tmpl : Type.
(** [template.New(name).Parse(text)] *)
Variable tParse : string -> list byte -> Tmpl + error.
(** [t.Execute(w, nil)] *)
Variable tExecute : Tmpl -> M C (option error).

(** The conversion of the buffer to a string and its [Parse], at the cost
    of the machine. *)
Definition parseTemplate (name : string) (text : list byte) : M C (Tmpl + error) :=
  fun w =>
    let res := tParse name text in
    (res, mkWorld (now w + parseCost text) (conn w)
                  (history w ++ [EvParse name (errOf res)])).

(** The function literal registered for "/" (server.go:12-29).  The
    request [r] is never used. *)
Definition handler (r : Request) : M C unit :=
  Sleep (time.Second * 10) ;;;
  let size := 900 * 1000 * 1000 in
  tpl <- make size ;;
  res <- parseTemplate "page" (bytes_to_string tpl) ;;
  match res with
  | inr err =>
      Printf "error parsing template: %s" err
  | inl t =>
      e <- tExecute t ;;
      match e with
      | Some err => Printf "error writing: %s" err
      | None => ret tt
      end
  end.
End Handler.

(** *** [text/template] *)
Section TextTemplate.
Variable Action : Type.
(** The parser for a text that holds a left delimiter at offset [x]. *)
Variable parseActions : string -> list byte -> nat -> list (Node Action) + error.
(** The output of an action on the data [nil], or its execution error. *)
Variable evalAction : Action -> list byte + error.

Definition New (name : string) : Template Action := mkTemplate name [].

(** [t.Parse(text)]: a text without left delimiter is lexed as one text
    item (none when the text is empty) followed by the end of input. *)
Definition Parse (t : Template Action) (text : list byte)
  : Template Action + error :=
  match Index text leftDelim with
  | None =>
      inl (mkTemplate (Name t)
                      match text with
                      | [] => []
                      | _ :: _ => [TextNode text]
                      end)
  | Some x =>
      match parseActions (Name t) text x with
      | inl nodes => inl (mkTemplate (Name t) nodes)
      | inr e => inr e
      end
  end.

(** The walk of [Execute]: a text node is written with one [Write] call;
    the first error ends the walk and is returned. *)
Fixpoint walk (nodes : list (Node Action)) : M C (option error) :=
  match nodes with
  | [] => ret None
  | TextNode text :: rest =>
      r <- wWrite text ;;
      match wr_err r with
      | Some e => ret (Some e)
      | None => walk rest
      end
  | ActionNode a :: rest =>
      match evalAction a with
      | inr e => ret (Some e)
      | inl out =>
          r <- wWrite out ;;
          match wr_err r with
          | Some e => ret (Some e)
          | None => walk rest
          end
      end
  end.

Definition Execute (t : Template Action) : M C (option error) :=
  walk (Root t).

(** The handler of [main], on Go's [text/template]. *)
Definition rootHandler : Request -> M C unit :=
  handler (Template Action) (fun name text => Parse (New name) text) Execute.

(** [main] (server.go:10-40): what it logs before serving and the server
    it starts; [None] when the registration panics.  The command line
    [args] ([os.Args]) is never read. *)
Definition main (args : list string)
  : option (list string * Server (Request -> M C unit)) :=
  match http.HandleFunc (http.NewServeMux _) "/"%string rootHandler with
  | None => None
  | Some mux =>
      let srv := mkServer (10 * time.Minute) (10 * time.Minute)
                          ":8080"%string mux in
      Some (["server is running!"%string], srv)
  end.
End TextTemplate.
End Backend.

Arguments make_bytes : simpl never.

(** ** The TCP connection under the [ResponseWriter] *)

Definition EPIPE : error := "write: broken pipe"%string.
Definition ErrDeadlineExceeded : error := "i/o timeout"%string.

(** The connection as the handler's goroutine sees it.  The link carries one
    byte every [nsPerByte] nanoseconds; bytes reach the peer until it
    closes its end or the write deadline passes, whichever is first.  The
    buffers between the handler and the wire, those of net/http and of the
    kernel, take in [absorbed] bytes more, which the [Write] call counts
    although they never reach the peer. *)
Record Conn : Type := mkConn {
  peerClosedAt : option Z;     (* the instant the peer closes its end *)
  writeDeadline : option Z;    (* SetWriteDeadline *)
  nsPerByte : Z;
  received : list byte;        (* what the peer has received of the body *)
  localAddr : string;          (* the address of the backend's end *)
  remoteAddr : string;         (* the address of the peer's end *)
  absorbed : Z
}.

Definition cutoff (c : Conn) : option Z :=
  match peerClosedAt c, writeDeadline c with
  | Some a, Some b => Some (Z.min a b)
  | Some a, None => Some a
  | None, Some b => Some b
  | None, None => None
  end.

Definition cutoffError (c : Conn) : error :=
  match peerClosedAt c, writeDeadline c with
  | Some a, Some b => if a <=? b then EPIPE else ErrDeadlineExceeded
  | Some _, None => EPIPE
  | None, _ => ErrDeadlineExceeded
  end.

(** The time [n] bytes take on the link. *)
Definition txTime (link : Z) (n : Z) : time.Duration := n * Z.max 0 link.

(** The text of a [net.OpError] on a TCP connection:
    [write tcp 172.18.0.2:8080->172.18.0.3:56768: write: broken pipe]. *)
Definition OpError (op : string) (c : Conn) (cause : error) : error :=
  (op ++ " tcp " ++ localAddr c ++ "->" ++ remoteAddr c ++ ": " ++ cause)%string.

Definition withReceived (c : Conn) (got : list byte) : Conn :=
  mkConn (peerClosedAt c) (writeDeadline c) (nsPerByte c) got
         (localAddr c) (remoteAddr c) (absorbed c).

(** Modelled from the spec: the kernel's TCP stack is no part of the sources;
    following the glossary, a write fails with a broken pipe when the remote
    peer has closed the connection.  A write that is over by the cut-off
    reaches the peer whole.  Of a write that is not, the peer gets the bytes
    that went out before the cut-off; the call counts those and what the
    local buffers absorb, and when that is less than it was offered it
    returns the error of the cause that came first. *)
Definition connWrite (c : Conn) (t : Z) (p : list byte) : WriteResult Conn :=
  let cost := txTime (nsPerByte c) (len p) in
  let whole := mkWriteResult (withReceived c (received c ++ p))
                             (len p) None cost in
  match cutoff c with
  | None => whole
  | Some k =>
      if t + cost <=? k then whole
      else
        let sent := if k <=? t then 0
                    else Z.max 0 (Z.min (len p) ((k - t) / nsPerByte c)) in
        let n := Z.min (len p) (sent + Z.max 0 (absorbed c)) in
        mkWriteResult
          (withReceived c (received c ++ firstn (Z.to_nat sent) p))
          n
          (if n <? len p then Some (OpError "write" c (cutoffError c)) else None)
          (Z.max 0 (k - t))
  end.

#[export, refine] Instance connWriter : ResponseWriter Conn :=
  {| Write := connWrite |}.
Proof.
  - intros c t p. unfold connWrite, len.
    destruct (cutoff c) as [k|]; [|simpl; lia].
    destruct (t + _ <=? k); [simpl; lia|].
    destruct (k <=? t); simpl; lia.
  - intros c t p. unfold connWrite.
    destruct (cutoff c) as [k|]; [|simpl; lia].
    destruct (t + _ <=? k); [simpl; lia|].
    cbn [wr_n wr_err]. intros L.
    apply Z.ltb_lt in L. rewrite L. discriminate.
  - intros c t p. unfold connWrite, txTime, len.
    destruct (cutoff c) as [k|]; [|simpl; nia].
    destruct (t + _ <=? k); simpl; [nia|lia].
Defined.

(** [SetWriteDeadline(now + d)], which [net/http] calls once the request
    header is read when [WriteTimeout] is positive. *)
Definition SetWriteDeadline (c : Conn) (t : Z) : Conn :=
  mkConn (peerClosedAt c) (Some t) (nsPerByte c) (received c)
         (localAddr c) (remoteAddr c) (absorbed c).

(** The connection as the server hands it to a handler for a request read
    at [t0]. *)
Definition armed {H : Type} (srv : Server H) (c : Conn) (t0 : Z) : Conn :=
  if 0 <? WriteTimeout srv
  then SetWriteDeadline c (t0 + WriteTimeout srv)
  else c.

(** The body of [http.NotFound]. *)
Definition notFoundBody : list byte :=
  list_byte_of_string "404 page not found" ++ [x0a].

(** One request on one connection, as [ListenAndServe] serves it: the write
    deadline is armed; the asterisk form of a request, whose path is the
    asterisk, is refused; any other request is routed, and the handler of
    its route runs.  The status line, the header fields and the short body
    of a redirect or of a refusal are not modelled, nor are the checks of the
    request line and of the header fields that the server makes before it
    routes (an HTTP/1.1 request without a [Host] field is refused). *)
Definition serveRequest (srv : Server (Request -> M Conn unit)) (r : Request)
  : M Conn unit :=
  fun w =>
    let w1 := mkWorld (now w) (armed srv (conn w) (now w)) (history w) in
    if String.eqb (Path r) "*" then record EvBadRequest w1
    else
      match http.route (Handler srv) r with
      | http.Routed e => http.h e r w1
      | http.Redirect location => record (EvRedirect location) w1
      | http.NotFound => (wWrite notFoundBody ;;; ret tt) w1
      end.

(** ** The listen address *)

(** The TCP port [ListenAndServe] binds: an empty [Addr] stands for
    [":http"]; named services other than that are not resolved here. *)
Definition listenPort {H : Type} (srv : Server H) : option Z :=
  if String.eqb (Addr srv) "" then Some 80
  else match SplitHostPort (Addr srv) with
       | Some (_, port) => parseUint port None
       | None => None
       end.

(** ** The reverse proxy: [nginx.conf] *)

Module nginx.
#[warnings="-register-all"] Inductive Directive : Type :=
| Dir (name : string) (args : list string) (block : list Directive).

Definition name (d : Directive) : string := let (n, _, _) := d in n.
Definition args (d : Directive) : list string := let (_, a, _) := d in a.
Definition block (d : Directive) : list Directive := let (_, _, b) := d in b.

Local Open Scope string_scope.

(** nginx.conf, directive by directive. *)
Definition conf : list Directive :=
  [ Dir "events" [] [ Dir "worker_connections" ["1024"] [] ];
    Dir "http" []
      [ Dir "server_tokens" ["off"] [];
        Dir "server" []
          [ Dir "listen" ["80"] [];
            Dir "location" ["/"]
              [ Dir "proxy_set_header" ["X-Forwarded-For"; "$remote_addr"] [];
                Dir "proxy_set_header" ["Host"; "$http_host"] [];
                Dir "proxy_read_timeout" ["2s"] [];
                Dir "proxy_connect_timeout" ["2s"] [];
                Dir "proxy_send_timeout" ["2s"] [];
                Dir "proxy_pass" ["http://goservice:8080/"] [] ] ] ] ].

Definition lookup (n : string) (ds : list Directive) : option Directive :=
  find (fun d => String.eqb (name d) n) ds.

Definition children (n : string) (ds : list Directive) : list Directive :=
  match lookup n ds with
  | Some d => block d
  | None => []
  end.

(** The directives of [location uri] of the first server of [http]. *)
Definition location (uri : string) (c : list Directive) : list Directive :=
  match find (fun d => String.eqb (name d) "location"
                       && match args d with
                          | [u] => String.eqb u uri
                          | _ => false
                          end)
             (children "server" (children "http" c)) with
  | Some d => block d
  | None => []
  end.

Definition unitOf (suffix : string) : option time.Duration :=
  if String.eqb suffix "ms" then Some time.Millisecond
  else if String.eqb suffix "s" then Some time.Second
  else if String.eqb suffix "" then Some time.Second
  else if String.eqb suffix "m" then Some time.Minute
  else if String.eqb suffix "h" then Some (60 * time.Minute)
  else if String.eqb suffix "d" then Some (24 * 60 * time.Minute)
  else None.

(** A time value of the configuration, for the values made of one decimal
    number and one unit, seconds when there is none; values of several
    parts, as [1h 30m], are not read. *)
Fixpoint parseTime (s : string) (acc : option Z) : option time.Duration :=
  match s with
  | EmptyString => option_map (fun a => a * time.Second) acc
  | String c rest =>
      match digit c with
      | Some d =>
          parseTime rest (Some (10 * match acc with Some a => a | None => 0 end + d))
      | None =>
          match acc, unitOf s with
          | Some a, Some u => Some (a * u)
          | _, _ => None
          end
      end
  end.

(** The value of a timeout directive of a location. *)
Definition timeout (n : string) (loc : list Directive) : option time.Duration :=
  match lookup n loc with
  | Some d =>
      match args d with
      | [v] => parseTime v None
      | _ => None
      end
  | None => None
  end.

Definition isVarChar (c : ascii) : bool :=
  let n := nat_of_ascii c in
  ((97 <=? n) && (n <=? 122) || (65 <=? n) && (n <=? 90)
   || (48 <=? n) && (n <=? 57) || (n =? 95))%nat.

(** The value of a directive with its [$variables] replaced; [var] is the
    variable name being read, if any. *)
Fixpoint expand (env : string -> string) (s : string) (var : option string)
  : string :=
  match s with
  | EmptyString =>
      match var with
      | Some v => env v
      | None => EmptyString
      end
  | String c rest =>
      match var with
      | Some v =>
          if isVarChar c then expand env rest (Some (v ++ String c EmptyString))
          else env v ++ (if Ascii.eqb c "$" then expand env rest (Some EmptyString)
                         else String c (expand env rest None))
      | None =>
          if Ascii.eqb c "$" then expand env rest (Some EmptyString)
          else String c (expand env rest None)
      end
  end.

(** The variables of a client request: its address and its [Host] header. *)
Definition requestEnv (remote_addr http_host : string) (v : string) : string :=
  if String.eqb v "remote_addr" then remote_addr
  else if String.eqb v "http_host" then http_host
  else EmptyString.

(** The header fields [proxy_set_header] sets on the request passed to the
    backend, in the order of the configuration. *)
Definition setHeaders (loc : list Directive) (remote_addr http_host : string)
  : list (string * string) :=
  flat_map (fun d =>
              if String.eqb (name d) "proxy_set_header" then
                match args d with
                | [field; value] =>
                    [(field, expand (requestEnv remote_addr http_host) value None)]
                | _ => []
                end
              else [])
           loc.
End nginx.


(** A client connected to the backend without a proxy, over a link of
    [link] nanoseconds per byte: it never hangs up. *)
Definition direct (link : Z) : Conn :=
  mkConn None None link [] "127.0.0.1:8080" "127.0.0.1:50000" 0.

(** ** The server image *)

Module Dockerfile.
Local Open Scope string_scope.

Definition EXPOSE : Z := 8080.

(** The shell form of [ENTRYPOINT]. *)
Definition ENTRYPOINT : string := "/go/bin/web-app --port 8080".

(** The words of a command line, split at spaces. *)
Fixpoint fields (s : string) (cur : string) : list string :=
  match s with
  | EmptyString => if String.eqb cur "" then [] else [cur]
  | String c rest =>
      if Ascii.eqb c " "
      then (if String.eqb cur "" then [] else [cur]) ++ fields rest ""
      else fields rest (cur ++ String c EmptyString)
  end.

(** [os.Args] of the process the entrypoint starts. *)
Definition argv : list string := fields ENTRYPOINT "".
End Dockerfile.

(** ** The whole backend on one connection *)

(** A request is a success for the handler when it returns without having
    logged anything: [Parse] and [Execute] both returned a nil error. *)
Definition succeeded {C : Type} (before after : World C) : Prop :=
  logLines (history after) = logLines (history before).

Section System.
Context {MC : Machine}.
Variable Action : Type.
Variable parseActions : string -> list byte -> nat -> list (Node Action) + error.
Variable evalAction : Action -> list byte + error.

(** The process of the image serves the request [r], read at [t0] on the
    connection [c]; the result is the world when the handler has returned. *)
Definition serve (c : Conn) (t0 : Z) (r : Request) : option (World Conn) :=
  match main Action parseActions evalAction Dockerfile.argv with
  | None => None
  | Some (_, srv) => Some (run (serveRequest srv r) (mkWorld t0 c []))
  end.

End System.

(** ** The worlds along one run of the handler *)

Section Stages.
Context {C : Type} {RW : ResponseWriter C} {MC : Machine}.

(** The time from the call of the handler to its [Write] call: the sleep,
    what it overshoots, and the building and the parsing of the buffer. *)
Definition readyAfter : time.Duration :=
  sleepDuration + sleepOver sleepDuration + makeCost size
  + parseCost (bytes_to_string (make_bytes size)).

(** The world when the handler has slept, built its buffer and parsed it. *)
Definition parsed (w : World C) (err : option error) : World C :=
  mkWorld (now w + readyAfter) (conn w)
          (history w ++ [EvSleep sleepDuration; EvMake size; EvParse "page" err]).

(** The world after one more line on the log. *)
Definition logged (w : World C) (line : string) : World C :=
  mkWorld (now w) (conn w) (history w ++ [EvLog line]).

(** The single [Write] call of a run started in [w]: the whole buffer,
    offered when the sleep is over and the buffer is built and parsed. *)
Definition theWrite (w : World C) : WriteResult C :=
  Write (conn w) (now w + readyAfter) (make_bytes size).

(** The line the handler logs for the outcome of that call, if any. *)
Definition outcomeLog (err : option error) : list Event :=
  match err with
  | Some e => [EvLog ("error writing: " ++ e)]
  | None => []
  end.
End Stages.

(** ** The upstream of [proxy_pass] and the composition of the containers *)

(** The text after the prefix [p], when [s] starts with it. *)
Fixpoint stripPrefix (p s : string) : option string :=
  match p with
  | EmptyString => Some s
  | String a p' =>
      match s with
      | String b s' => if Ascii.eqb a b then stripPrefix p' s' else None
      | EmptyString => None
      end
  end.

(** The part of [s] before its first slash. *)
Fixpoint untilSlash (s : string) : string :=
  match s with
  | EmptyString => EmptyString
  | String c rest =>
      if Ascii.eqb c "/" then EmptyString else String c (untilSlash rest)
  end.

(** The host and the port of an [http://] URL; port 80 when it names none. *)
Definition upstreamOf (url : string) : option (string * Z) :=
  match stripPrefix "http://" url with
  | None => None
  | Some rest =>
      let authority := untilSlash rest in
      match SplitHostPort authority with
      | Some (host, port) => option_map (fun p => (host, p)) (parseUint port None)
      | None => Some (authority, 80)
      end
  end.

(** Where the [proxy_pass] directive of a location sends the requests. *)
Definition proxyPass (loc : list nginx.Directive) : option (string * Z) :=
  match nginx.lookup "proxy_pass" loc with
  | Some d =>
      match nginx.args d with
      | [url] => upstreamOf url
      | _ => None
      end
  | None => None
  end.

(** The port of the [listen] directive of the first server. *)
Definition proxyListen (c : list nginx.Directive) : option Z :=
  match nginx.lookup "listen" (nginx.children "server" (nginx.children "http" c)) with
  | Some d =>
      match nginx.args d with
      | [v] => parseUint v None
      | _ => None
      end
  | None => None
  end.

(** docker-compose.yaml, as the README gives it. *)
Module compose.
Record Service : Type := mkService {
  name : string;
  build : string;
  ports : list string;
  depends_on : list string
}.

Local Open Scope string_scope.

Definition services : list Service :=
  [ mkService "goservice" "server.Dockerfile" ["8080"] [];
    mkService "nginx" "nginx.Dockerfile" ["80:80"] ["goservice"] ].

Definition service (n : string) : option Service :=
  find (fun s => String.eqb (name s) n) services.

(** The container port of a port entry, [host:container] or [container]. *)
Definition containerPort (p : string) : option Z :=
  match SplitHostPort p with
  | Some (_, c) => parseUint c None
  | None => parseUint p None
  end.
End compose.

(** ** Sample inputs *)

(** The least template package: a text with a left delimiter is rejected,
    and there is no action to evaluate. *)
Definition NoAction : Type := Empty_set.

Definition rejectActions (name : string) (text : list byte) (x : nat)
  : list (Node NoAction) + error := inr "unclosed action"%string.

Definition evalNoAction (a : NoAction) : list byte + error :=
  match a with end.

Definition getRoot : Request := mkRequest "GET" "localhost" "/" [].

Definition postUpload : Request :=
  mkRequest "POST" "localhost" "/upload" (list_byte_of_string "hello").

(** Links of one nanosecond and of one microsecond per byte. *)
Definition fastLink : Z := 1.

(** A machine that overshoots a sleep by a millisecond, makes a buffer at
    one nanosecond per byte and converts and parses one at two: 12.701
    seconds from the call of the handler to its [Write] call. *)
#[export, refine] Instance sampleMachine : Machine :=
  {| sleepOver := fun _ => time.Millisecond;
     makeCost := fun n => Z.max 0 n;
     parseCost := fun text => 2 * len text |}.
Proof.
  - intros d. discriminate.
  - intros n. apply Z.le_max_l.
  - intros text. unfold len. apply Z.mul_nonneg_nonneg; [discriminate|].
    apply Zle_0_nat.
Defined.


(** * Properties *)

(** ** The model on small inputs *)

Example Index_finds_delim : Index [x61; x7b; x7b; x62] leftDelim = Some 1%nat.
Proof. reflexivity. Qed.

Example Index_single_brace : Index [x61; x7b; x62; x7b] leftDelim = None.
Proof. reflexivity. Qed.

Example Sprintf_verb : Sprintf "got %s here" "that" = "got that here"%string.
Proof. reflexivity. Qed.

Example Parse_text_only :
  Parse NoAction rejectActions (New NoAction "t") [x68; x69]
  = inl (mkTemplate "t"%string [TextNode [x68; x69]]).
Proof. reflexivity. Qed.

Example Parse_unclosed :
  Parse NoAction rejectActions (New NoAction "t") [x7b; x7b]
  = inr "unclosed action"%string.
Proof. reflexivity. Qed.

(** Four bytes at ten nanoseconds each, the peer gone after 25, one byte
    absorbed: two bytes get through, the call counts three and blocks until
    the peer is gone. *)
Example connWrite_cut_short :
  connWrite (mkConn (Some 125) None 10 [] "a:1" "b:2" 1) 100 [x01; x02; x03; x04]
  = mkWriteResult (mkConn (Some 125) None 10 [x01; x02] "a:1" "b:2" 1) 3
                  (Some "write tcp a:1->b:2: write: broken pipe"%string) 25.
Proof. reflexivity. Qed.

(** The same write when the peer is gone already: nothing gets through. *)
Example connWrite_after_close :
  connWrite (mkConn (Some 90) None 10 [] "a:1" "b:2" 1) 100 [x01; x02; x03; x04]
  = mkWriteResult (mkConn (Some 90) None 10 [] "a:1" "b:2" 1) 1
                  (Some "write tcp a:1->b:2: write: broken pipe"%string) 0.
Proof. reflexivity. Qed.

(** A write the local buffers swallow whole reports no error. *)
Example connWrite_swallowed :
  connWrite (mkConn (Some 90) None 10 [] "a:1" "b:2" 8) 100 [x01; x02; x03; x04]
  = mkWriteResult (mkConn (Some 90) None 10 [] "a:1" "b:2" 8) 4 None 0.
Proof. reflexivity. Qed.

Example connWrite_in_time :
  connWrite (mkConn (Some 140) (Some 150) 10 [] "a:1" "b:2" 1) 100
            [x01; x02; x03; x04]
  = mkWriteResult (mkConn (Some 140) (Some 150) 10 [x01; x02; x03; x04]
                          "a:1" "b:2" 1)
                  4 None 40.
Proof. reflexivity. Qed.

Example connWrite_deadline :
  connWrite (mkConn (Some 140) (Some 120) 10 [] "a:1" "b:2" 0) 100
            [x01; x02; x03; x04]
  = mkWriteResult (mkConn (Some 140) (Some 120) 10 [x01; x02] "a:1" "b:2" 0) 2
                  (Some "write tcp a:1->b:2: i/o timeout"%string) 20.
Proof. reflexivity. Qed.

Example Execute_small :
  run (Execute NoAction evalNoAction (mkTemplate "t"%string [TextNode [x68; x69]]))
      (mkWorld 7 (direct 3) [])
  = mkWorld 13 (withReceived (direct 3) [x68; x69]) [EvWrite 7 [x68; x69] 2 None].
Proof. reflexivity. Qed.

Example SplitHostPort_forms :
  SplitHostPort ":8080" = Some (""%string, "8080"%string)
  /\ SplitHostPort "[::1]:80" = Some ("::1"%string, "80"%string)
  /\ SplitHostPort "a:b:c" = None
  /\ SplitHostPort "a[b:80" = None
  /\ SplitHostPort "[abc]" = None
  /\ SplitHostPort "host" = None
  /\ stripHostPort "example.com:8080" = "example.com"%string
  /\ stripHostPort "example.com" = "example.com"%string.
Proof. repeat split; reflexivity. Qed.

Example cleanPath_forms :
  cleanPath "" = "/"%string
  /\ cleanPath "/" = "/"%string
  /\ cleanPath "//upload" = "/upload"%string
  /\ cleanPath "/a/../b" = "/b"%string
  /\ cleanPath "/a/./b/" = "/a/b/"%string
  /\ cleanPath "/../a//" = "/a/"%string
  /\ cleanPath "a/b" = "/a/b"%string
  /\ cleanPath "/a/.." = "/"%string
  /\ cleanPath "*" = "/*"%string.
Proof. repeat split; reflexivity. Qed.

Example route_forms :
  http.route [http.mkEntry "/"%string 1] (mkRequest "POST" "h:80" "/upload" [])
  = http.Routed (http.mkEntry "/"%string 1)
  /\ http.route [http.mkEntry "/"%string 1] (mkRequest "GET" "h" "//upload" [])
     = http.Redirect "/upload"
  /\ http.route [http.mkEntry "/"%string 1] (mkRequest "GET" "h" "/a/../b" [])
     = http.Redirect "/b"
  /\ http.route [http.mkEntry "/api/"%string 1] (mkRequest "GET" "h" "/api" [])
     = http.Redirect "/api/"
  /\ http.route [http.mkEntry "/api/"%string 1] (mkRequest "GET" "h" "/x" [])
     = http.NotFound.
Proof. repeat split; reflexivity. Qed.

Example parseTime_units :
  nginx.parseTime "500ms" None = Some (500 * time.Millisecond)
  /\ nginx.parseTime "3m" None = Some (3 * time.Minute)
  /\ nginx.parseTime "60" None = Some (60 * time.Second)
  /\ nginx.parseTime "s" None = None.
Proof. repeat split; reflexivity. Qed.

Example listenPort_forms :
  listenPort (mkServer 0 0 "127.0.0.1:9090"%string (@nil (http.muxEntry unit)))
  = Some 9090
  /\ listenPort (mkServer 0 0 ""%string (@nil (http.muxEntry unit))) = Some 80
  /\ listenPort (mkServer 0 0 "8080"%string (@nil (http.muxEntry unit))) = None.
Proof. repeat split; reflexivity. Qed.

Example match_longest :
  http.match_ [http.mkEntry "/"%string 1; http.mkEntry "/api/"%string 2;
               http.mkEntry "/api/v1"%string 3] "/api/v2"
  = Some (http.mkEntry "/api/"%string 2)
  /\ http.match_ [http.mkEntry "/api/"%string 2] "/other" = None.
Proof. split; reflexivity. Qed.

Example HandleFunc_twice :
  http.HandleFunc [http.mkEntry "/"%string 1] "/" 2 = None.
Proof. reflexivity. Qed.

(** ** Constants and byte slices *)

Lemma durations_in_int64 :
  int64_range sleepDuration = true /\ int64_range (10 * time.Minute) = true.
Proof. split; reflexivity. Qed.

Lemma sleepDuration_seconds : sleepDuration = 10 * time.Second.
Proof. reflexivity. Qed.

Lemma size_value : size = 900000000.
Proof. reflexivity. Qed.

Lemma len_make_bytes (n : Z) : 0 <= n -> len (make_bytes n) = n.
Proof.
  intros Hn. unfold len, make_bytes.
  rewrite repeat_length. apply Z2Nat.id, Hn.
Qed.

Lemma make_bytes_zero (n : Z) : Forall (fun b => b = x00) (make_bytes n).
Proof.
  unfold make_bytes. induction (Z.to_nat n) as [|k IH]; simpl; constructor; auto.
Qed.

Lemma make_bytes_cons (n : Z) :
  0 < n -> exists tl, make_bytes n = x00 :: tl.
Proof.
  intros Hn. unfold make_bytes.
  destruct (Z.to_nat n) as [|k] eqn:E; [lia|].
  exists (repeat x00 k). reflexivity.
Qed.

(** No run of zero bytes holds the left delimiter. *)
Lemma Index_repeat_zero (k : nat) : Index (repeat x00 k) leftDelim = None.
Proof.
  induction k as [|k IH]; [reflexivity|].
  change (repeat x00 (S k)) with (x00 :: repeat x00 k).
  cbn [Index HasPrefix leftDelim]. cbn [Byte.eqb andb].
  change (Byte.eqb x00 x7b) with false. cbn [andb].
  rewrite IH. reflexivity.
Qed.

Lemma Index_make_bytes (n : Z) : Index (make_bytes n) leftDelim = None.
Proof. apply Index_repeat_zero. Qed.

Lemma Sprintf_parse_error (e : string) :
  Sprintf "error parsing template: %s" e = ("error parsing template: " ++ e)%string.
Proof.
  cbn. repeat f_equal.
  induction e as [|c e IH]; [reflexivity|]. cbn. now rewrite IH.
Qed.

Lemma Sprintf_write_error (e : string) :
  Sprintf "error writing: %s" e = ("error writing: " ++ e)%string.
Proof.
  cbn. repeat f_equal.
  induction e as [|c e IH]; [reflexivity|]. cbn. now rewrite IH.
Qed.

Lemma logLines_app (h1 h2 : list Event) :
  logLines (h1 ++ h2) = logLines h1 ++ logLines h2.
Proof. apply flat_map_app. Qed.

Lemma writeCalls_app (h1 h2 : list Event) :
  writeCalls (h1 ++ h2) = writeCalls h1 ++ writeCalls h2.
Proof. apply flat_map_app. Qed.

Lemma bodyWritten_app (h1 h2 : list Event) :
  bodyWritten (h1 ++ h2) = bodyWritten h1 ++ bodyWritten h2.
Proof. apply flat_map_app. Qed.

(** ** The time before the [Write] call *)

Section ReadyFacts.
Context {MC : Machine}.

(** The [Write] call is not made before the ten seconds of the sleep are
    over. *)
Lemma readyAfter_ge_sleep : sleepDuration <= readyAfter.
Proof.
  unfold readyAfter.
  pose proof (sleepOver_nonneg sleepDuration).
  pose proof (makeCost_nonneg size).
  pose proof (parseCost_nonneg (bytes_to_string (make_bytes size))).
  lia.
Qed.
End ReadyFacts.

(** ** The handler, step by step *)

Section BackendFacts.
Context {C : Type} {RW : ResponseWriter C} {MC : Machine}.

Lemma handler_run (Tmpl : Type) (tParse : string -> list byte -> Tmpl + error)
      (tExecute : Tmpl -> M C (option error)) (r : Request) (w : World C) :
  run (handler Tmpl tParse tExecute r) w =
  match tParse "page"%string (make_bytes size) with
  | inr e => logged (parsed w (Some e)) ("error parsing template: " ++ e)
  | inl t =>
      match tExecute t (parsed w None) with
      | (Some e, w2) => logged w2 ("error writing: " ++ e)
      | (None, w2) => w2
      end
  end.
Proof.
  assert (P : forall err,
             mkWorld (now w + sleepDuration + sleepOver sleepDuration
                      + makeCost size + parseCost (make_bytes size))
                     (conn w)
                     (((history w ++ [EvSleep sleepDuration]) ++ [EvMake size])
                      ++ [EvParse "page" err])
             = parsed w err).
  { intros err. unfold parsed, readyAfter, bytes_to_string. f_equal.
    - rewrite <- !Z.add_assoc. reflexivity.
    - rewrite <- !app_assoc. reflexivity. }
  unfold run, handler, bind, Sleep, make, parseTemplate, Printf, record, ret,
    bytes_to_string, logged.
  cbn [fst snd now conn history].
  change (900 * 1000 * 1000) with size.
  change (time.Second * 10) with sleepDuration.
  change (Z.max 0 sleepDuration) with sleepDuration.
  destruct (tParse "page"%string (make_bytes size)) as [t|e]; cbn [errOf];
    rewrite P.
  - destruct (tExecute t (parsed w None)) as [[e|] w2]; cbn [snd now conn history].
    + rewrite Sprintf_write_error. reflexivity.
    + reflexivity.
  - cbn [snd now conn history]. rewrite Sprintf_parse_error. reflexivity.
Qed.
End BackendFacts.

(** ** [text/template] on the handler's buffer *)

Section TemplateFacts.
Context {C : Type} {RW : ResponseWriter C} {MC : Machine}.
Variable Action : Type.
Variable parseActions : string -> list byte -> nat -> list (Node Action) + error.
Variable evalAction : Action -> list byte + error.

Lemma Parse_make_bytes (name : string) (n : Z) :
  0 < n ->
  Parse Action parseActions (New Action name) (make_bytes n)
  = inl (mkTemplate name [TextNode (make_bytes n)]).
Proof.
  intros Hn. unfold Parse. rewrite Index_make_bytes.
  destruct (make_bytes_cons n Hn) as [tl E].
  cbn [New Name]. rewrite E. reflexivity.
Qed.

Lemma Execute_text (name : string) (p : list byte) (w : World C) :
  Execute Action evalAction (mkTemplate name [TextNode p]) w
  = (wr_err (Write (conn w) (now w) p),
     mkWorld (now w + wr_elapsed (Write (conn w) (now w) p))
             (wr_conn (Write (conn w) (now w) p))
             (history w ++ [EvWrite (now w) p (wr_n (Write (conn w) (now w) p))
                                    (wr_err (Write (conn w) (now w) p))])).
Proof.
  unfold Execute. cbn [Root walk]. unfold bind, wWrite, ret.
  destruct (wr_err (Write (conn w) (now w) p)); reflexivity.
Qed.

(** One run of the handler of [main], in closed form. *)
Lemma rootHandler_run (r : Request) (w : World C) :
  run (rootHandler Action parseActions evalAction r) w
  = mkWorld (now w + readyAfter + wr_elapsed (theWrite w))
            (wr_conn (theWrite w))
            (history w
             ++ [EvSleep sleepDuration; EvMake size; EvParse "page" None;
                 EvWrite (now w + readyAfter) (make_bytes size)
                         (wr_n (theWrite w)) (wr_err (theWrite w))]
             ++ outcomeLog (wr_err (theWrite w))).
Proof.
  unfold rootHandler. rewrite handler_run.
  rewrite Parse_make_bytes by reflexivity.
  rewrite Execute_text. unfold theWrite, parsed, logged, outcomeLog.
  cbn [now conn history].
  destruct (wr_err (Write (conn w) (now w + readyAfter) (make_bytes size)));
    cbn [now conn history]; rewrite <- !app_assoc; reflexivity.
Qed.
End TemplateFacts.

(** ** The handler on any [ResponseWriter] *)

Section HandlerClaims.
Context {C : Type} {RW : ResponseWriter C} {MC : Machine}.
Variable Action : Type.
Variable parseActions : string -> list byte -> nat -> list (Node Action) + error.
Variable evalAction : Action -> list byte + error.

Let rootH := rootHandler (C := C) Action parseActions evalAction.

(** A run is a success exactly when its [Write] call returned no error. *)
Lemma succeeded_iff (r : Request) (w : World C) :
  succeeded w (run (rootH r) w) <-> wr_err (theWrite w) = None.
Proof.
  unfold succeeded, rootH. rewrite rootHandler_run. cbn [history].
  rewrite !logLines_app. cbn [logLines flat_map app].
  destruct (wr_err (theWrite w)) as [e|]; cbn [outcomeLog logLines flat_map app].
  - split; [|discriminate].
    intros E. rewrite <- (app_nil_r (logLines (history w))) in E at 2.
    apply app_inv_head in E. discriminate.
  - rewrite app_nil_r. tauto.
Qed.

(** A successful [Write] call took the whole buffer. *)
Lemma theWrite_whole (w : World C) :
  wr_err (theWrite w) = None -> wr_n (theWrite w) = len (make_bytes size).
Proof.
  intros E. unfold theWrite in *.
  pose proof (Write_n_range (conn w) (now w + readyAfter) (make_bytes size)) as R.
  pose proof (Write_short (conn w) (now w + readyAfter) (make_bytes size)) as S.
  destruct (Z.eq_dec (wr_n (Write (conn w) (now w + readyAfter) (make_bytes size)))
                     (len (make_bytes size))) as [->|N]; [reflexivity|].
  exfalso. apply S; [lia|exact E].
Qed.

Lemma body_of_run (r : Request) (w : World C) :
  bodyWritten (history (run (rootH r) w))
  = bodyWritten (history w)
    ++ firstn (Z.to_nat (wr_n (theWrite w))) (make_bytes size).
Proof.
  unfold rootH. rewrite rootHandler_run. cbn [history].
  rewrite !bodyWritten_app. f_equal.
  cbn [bodyWritten flat_map app].
  destruct (wr_err (theWrite w)); cbn [outcomeLog flat_map app];
    rewrite !app_nil_r; reflexivity.
Qed.

Lemma firstn_len (p : list byte) : firstn (Z.to_nat (len p)) p = p.
Proof. unfold len. rewrite Nat2Z.id. apply firstn_all. Qed.

(** C3: every run of the handler does the same steps in the same order: it
    sleeps for ten seconds, then makes the buffer of [size] bytes, then (the
    buffer parsed) offers it to the response in one [Write] call, made when
    the sleep, the making and the parsing are over, so ten seconds or more
    after the handler was called; it logs the failure, as its last step,
    exactly when that call returned an error. *)
Theorem C3_steps_in_fixed_order (r : Request) (w : World C) :
  sleepDuration = 10 * time.Second /\
  readyAfter = sleepDuration + sleepOver sleepDuration + makeCost size
               + parseCost (make_bytes size) /\
  sleepDuration <= readyAfter /\
  history (run (rootH r) w)
  = history w
    ++ [EvSleep sleepDuration; EvMake size; EvParse "page" None;
        EvWrite (now w + readyAfter) (make_bytes size)
                (wr_n (theWrite w)) (wr_err (theWrite w))]
    ++ match wr_err (theWrite w) with
       | Some e => [EvLog ("error writing: " ++ e)]
       | None => []
       end.
Proof.
  split; [reflexivity|]. split; [reflexivity|].
  split; [apply readyAfter_ge_sleep|].
  unfold rootH. rewrite rootHandler_run. reflexivity.
Qed.

(** C5: when a request succeeds, the body the handler wrote is the buffer
    it made, whole and unchanged, and that is 900 * 1000 * 1000 =
    900,000,000 bytes. *)
Theorem C5_body_has_fixed_size (r : Request) (w : World C) :
  succeeded w (run (rootH r) w) ->
  bodyWritten (history (run (rootH r) w))
  = bodyWritten (history w) ++ make_bytes size
  /\ len (make_bytes size) = 900 * 1000 * 1000
  /\ 900 * 1000 * 1000 = 900000000.
Proof.
  intros S. apply succeeded_iff in S.
  rewrite body_of_run, (theWrite_whole w S), firstn_len.
  split; [reflexivity|].
  split; [apply len_make_bytes; unfold size; lia|lia].
Qed.

(** C10: [make] gives a buffer of zero bytes, that text holds no left
    delimiter and parses to a single text node, so that when a request
    succeeds every byte of the body it wrote is the zero byte. *)
Theorem C10_body_is_all_zero (r : Request) (w : World C) :
  succeeded w (run (rootH r) w) ->
  Forall (fun b => b = x00) (make_bytes size)
  /\ Index (bytes_to_string (make_bytes size)) leftDelim = None
  /\ Parse Action parseActions (New Action "page") (bytes_to_string (make_bytes size))
     = inl (mkTemplate "page"%string [TextNode (make_bytes size)])
  /\ exists body,
       bodyWritten (history (run (rootH r) w)) = bodyWritten (history w) ++ body
       /\ len body = size
       /\ Forall (fun b => b = x00) body.
Proof.
  intros S. apply succeeded_iff in S.
  split; [apply make_bytes_zero|].
  split; [apply Index_make_bytes|].
  split; [apply Parse_make_bytes; reflexivity|].
  exists (make_bytes size).
  rewrite body_of_run, (theWrite_whole w S), firstn_len.
  split; [reflexivity|].
  split; [apply len_make_bytes; unfold size; lia|apply make_bytes_zero].
Qed.
End HandlerClaims.

(** ** What a run leaves on the log *)

Section LogClaims.
Context {C : Type} {RW : ResponseWriter C} {MC : Machine}.
Variable Action : Type.
Variable parseActions : string -> list byte -> nat -> list (Node Action) + error.
Variable evalAction : Action -> list byte + error.
(** Any outcome of [template.New(name).Parse(text)]. *)
Variable tParse : string -> list byte -> Template Action + error.

(** [Execute] writes; it never logs. *)
Lemma walk_logLines (nodes : list (Node Action)) (w : World C) :
  logLines (history (snd (walk Action evalAction nodes w)))
  = logLines (history w).
Proof.
  revert w. induction nodes as [|[text|a] rest IH]; intros w.
  - reflexivity.
  - cbn [walk]. unfold bind, wWrite.
    destruct (wr_err (Write (conn w) (now w) text)).
    + unfold ret. cbn [snd history]. rewrite logLines_app.
      cbn [logLines flat_map app]. apply app_nil_r.
    + rewrite IH. cbn [history]. rewrite logLines_app.
      cbn [logLines flat_map app]. apply app_nil_r.
  - cbn [walk]. destruct (evalAction a) as [out|e]; [|reflexivity].
    unfold bind, wWrite.
    destruct (wr_err (Write (conn w) (now w) out)).
    + unfold ret. cbn [snd history]. rewrite logLines_app.
      cbn [logLines flat_map app]. apply app_nil_r.
    + rewrite IH. cbn [history]. rewrite logLines_app.
      cbn [logLines flat_map app]. apply app_nil_r.
Qed.

(** C2, as amended: a run of the handler logs at most one line.  Whatever
    [Parse] returns, the run adds the line of the parse error when [Parse]
    failed, the line of the write error when [Execute] failed, and no line
    at all when the request succeeded; for the handler of [main] that is the
    line of the write error exactly when its [Write] call failed. *)
Theorem C2_at_most_one_log_line (r : Request) (w : World C) :
  logLines (history (run (handler (Template Action) tParse
                                  (Execute Action evalAction) r) w))
  = logLines (history w)
    ++ match tParse "page"%string (bytes_to_string (make_bytes size)) with
       | inr e => ["error parsing template: " ++ e]%string
       | inl t =>
           match fst (Execute Action evalAction t (parsed w None)) with
           | Some e => ["error writing: " ++ e]%string
           | None => []
           end
       end
  /\ (List.length (logLines (history (run (handler (Template Action) tParse
                                               (Execute Action evalAction) r) w)))
      <= List.length (logLines (history w)) + 1)%nat
  /\ logLines (history (run (rootHandler Action parseActions evalAction r) w))
     = logLines (history w)
       ++ match wr_err (theWrite w) with
          | Some e => ["error writing: " ++ e]%string
          | None => []
          end.
Proof.
  assert (P : forall err, logLines (history (parsed w err)) = logLines (history w)).
  { intros err. unfold parsed. cbn [history]. rewrite logLines_app.
    apply app_nil_r. }
  assert (E : logLines (history (run (handler (Template Action) tParse
                                              (Execute Action evalAction) r) w))
              = logLines (history w)
                ++ match tParse "page"%string (bytes_to_string (make_bytes size)) with
                   | inr e => ["error parsing template: " ++ e]%string
                   | inl t =>
                       match fst (Execute Action evalAction t (parsed w None)) with
                       | Some e => ["error writing: " ++ e]%string
                       | None => []
                       end
                   end).
  { rewrite handler_run. unfold bytes_to_string.
    destruct (tParse "page"%string (make_bytes size)) as [t|e].
    - pose proof (walk_logLines (Root t) (parsed w None)) as L.
      unfold Execute.
      destruct (walk Action evalAction (Root t) (parsed w None)) as [[e|] w2];
        cbn [fst snd] in *.
      + unfold logged. cbn [history]. rewrite logLines_app, L, P. reflexivity.
      + rewrite L, app_nil_r. apply P.
    - unfold logged. cbn [history]. rewrite logLines_app, P. reflexivity. }
  split; [exact E|]. split.
  - rewrite E, length_app.
    destruct (tParse "page"%string (bytes_to_string (make_bytes size))) as [t|e];
      [destruct (fst (Execute Action evalAction t (parsed w None)))|];
      cbn [List.length]; lia.
  - rewrite rootHandler_run. cbn [history].
    rewrite !logLines_app. f_equal.
    destruct (wr_err (theWrite w)); reflexivity.
Qed.
End LogClaims.

(** ** Routing and [main] *)

Lemma prefix_slash (tail : string) : String.prefix "/" (String "/" tail) = true.
Proof. destruct tail; reflexivity. Qed.

(** A clean path is rooted. *)
Lemma cleanPath_rooted (p : string) : exists tail, cleanPath p = String "/" tail.
Proof.
  destruct p as [|c p]; [exists ""%string; reflexivity|].
  unfold cleanPath. cbv zeta.
  destruct (lastIsSlash _ && negb _); unfold cleanRooted; eexists; reflexivity.
Qed.

Lemma rooted_not_asterisk (tail : string) :
  String.eqb (String "/" tail) "*" = false.
Proof. reflexivity. Qed.

(** A rooted path with a slash more, after any host, is not the pattern
    "/". *)
Lemma slash_more_not_root (host tail : string) :
  String.eqb "/" (host ++ String "/" tail ++ "/") = false.
Proof.
  apply String.eqb_neq.
  destruct host as [|a [|b host]]; destruct tail; cbn; intros E; discriminate E.
Qed.

Lemma shouldRedirect_root (H : Type) (hd : H) (host tail : string) :
  http.shouldRedirect H [http.mkEntry "/"%string hd] host (String "/" tail) = false.
Proof.
  unfold http.shouldRedirect, http.registered. cbn [existsb http.pattern].
  destruct (_ || _); [reflexivity|].
  change (String.eqb (String "/" tail) "") with false. cbv iota.
  rewrite (slash_more_not_root host tail).
  change (String "/" tail ++ "/")%string
    with ("" ++ String "/" tail ++ "/")%string.
  rewrite (slash_more_not_root "" tail). reflexivity.
Qed.

Lemma handler_root (H : Type) (hd : H) (host tail : string) :
  http.handler [http.mkEntry "/"%string hd] host (String "/" tail)
  = Some (http.mkEntry "/"%string hd).
Proof.
  unfold http.handler.
  change (http.hosts H [http.mkEntry "/"%string hd]) with false. cbv iota.
  unfold http.match_, http.exactEntry. cbn [find http.pattern].
  destruct (String.eqb "/" (String "/" tail)); [reflexivity|].
  cbn [http.longestPrefix http.pattern]. rewrite prefix_slash. reflexivity.
Qed.

(** With "/" as its only pattern, the table sends every request whose path
    is clean to the handler of that pattern, whatever its method and its
    host. *)
Lemma route_root (H : Type) (hd : H) (r : Request) :
  cleanPath (Path r) = Path r ->
  http.route [http.mkEntry "/"%string hd] r
  = http.Routed (http.mkEntry "/"%string hd).
Proof.
  intros P. destruct (cleanPath_rooted (Path r)) as [tail E]. rewrite P in E.
  unfold http.route. cbv zeta. rewrite P, !E.
  rewrite !shouldRedirect_root, !handler_root, String.eqb_refl.
  cbn [negb http.ofEntry]. destruct (String.eqb (Method r) "CONNECT"); reflexivity.
Qed.

Section MainFacts.
Context {C : Type} {RW : ResponseWriter C} {MC : Machine}.
Variable Action : Type.
Variable parseActions : string -> list byte -> nat -> list (Node Action) + error.
Variable evalAction : Action -> list byte + error.

Lemma main_starts (args : list string) :
  main (C := C) Action parseActions evalAction args
  = Some (["server is running!"%string],
          mkServer (10 * time.Minute) (10 * time.Minute) ":8080"%string
                   [http.mkEntry "/"%string
                                 (rootHandler Action parseActions evalAction)]).
Proof. reflexivity. Qed.
End MainFacts.

(** ** The handler on a TCP connection *)


Lemma size_nonneg : 0 <= size.
Proof. unfold size. lia. Qed.


Lemma connWrite_whole (c : Conn) (t : Z) (p : list byte) (k : Z) :
  cutoff c = Some k ->
  t + txTime (nsPerByte c) (len p) <= k ->
  connWrite c t p
  = mkWriteResult (withReceived c (received c ++ p))
                  (len p) None (txTime (nsPerByte c) (len p)).
Proof.
  intros K L. unfold connWrite. rewrite K.
  destruct (Z.leb_spec (t + txTime (nsPerByte c) (len p)) k); [reflexivity|lia].
Qed.



(** ** The backend behind the proxy *)

Lemma sample_readyAfter :
  readyAfter (MC := sampleMachine) = 12701 * time.Millisecond.
Proof.
  unfold readyAfter, bytes_to_string.
  cbn [sleepOver makeCost parseCost sampleMachine].
  rewrite (len_make_bytes size size_nonneg). reflexivity.
Qed.

(** A request that the table routes to an entry is served by the handler of
    that entry, on the connection with its write deadline armed. *)
Lemma serveRequest_routed (srv : Server (Request -> M Conn unit)) (r : Request)
      (e : http.muxEntry (Request -> M Conn unit)) (w : World Conn) :
  String.eqb (Path r) "*" = false ->
  http.route (Handler srv) r = http.Routed e ->
  serveRequest srv r w
  = http.h e r (mkWorld (now w) (armed srv (conn w) (now w)) (history w)).
Proof.
  intros A B. unfold serveRequest. rewrite A, B. reflexivity.
Qed.

Section SystemFacts.
Context {MC : Machine}.
Variable Action : Type.
Variable parseActions : string -> list byte -> nat -> list (Node Action) + error.
Variable evalAction : Action -> list byte + error.

Let rootH := rootHandler (C := Conn) Action parseActions evalAction.

(** The connection once the server of [main] has armed its write
    deadline. *)
Let deadlined (c : Conn) (t0 : Z) : Conn :=
  SetWriteDeadline c (t0 + 10 * time.Minute).


(** A request whose path is clean reaches the handler. *)
Lemma serve_run (c : Conn) (t0 : Z) (r : Request) :
  cleanPath (Path r) = Path r ->
  serve Action parseActions evalAction c t0 r
  = Some (run (rootH r) (mkWorld t0 (deadlined c t0) [])).
Proof.
  intros P. unfold serve. rewrite main_starts.
  destruct (cleanPath_rooted (Path r)) as [tail E]. rewrite P in E.
  unfold run.
  rewrite (serveRequest_routed _ r (http.mkEntry "/"%string rootH)).
  - cbn [http.h now conn history]. unfold armed. cbn [WriteTimeout].
    change (0 <? 10 * time.Minute) with true. cbv iota.
    unfold rootH, deadlined. reflexivity.
  - rewrite E. apply rooted_not_asterisk.
  - cbn [Handler]. apply route_root, P.
Qed.

Lemma theWrite_conn (c : Conn) (t0 : Z) :
  theWrite (mkWorld t0 c [])
  = connWrite c (t0 + readyAfter) (make_bytes size).
Proof. reflexivity. Qed.



(** The write on a connection whose peer never hangs up: only the server's
    own write deadline bounds it. *)
Lemma write_before_deadline (c : Conn) (t0 : Z) :
  peerClosedAt c = None ->
  readyAfter + txTime (nsPerByte c) size <= 10 * time.Minute ->
  theWrite (mkWorld t0 (deadlined c t0) [])
  = mkWriteResult
      (withReceived (deadlined c t0) (received c ++ make_bytes size))
      size None (txTime (nsPerByte c) size).
Proof.
  intros HP HW. rewrite theWrite_conn.
  rewrite (connWrite_whole _ _ _ (t0 + 10 * time.Minute)).
  - rewrite (len_make_bytes size size_nonneg). reflexivity.
  - unfold cutoff, deadlined, SetWriteDeadline. cbn [peerClosedAt writeDeadline].
    rewrite HP. reflexivity.
  - rewrite (len_make_bytes size size_nonneg).
    unfold deadlined, SetWriteDeadline. cbn [nsPerByte]. lia.
Qed.

End SystemFacts.

Section ProxyClaims.
Context {MC : Machine}.
Variable Action : Type.
Variable parseActions : string -> list byte -> nat -> list (Node Action) + error.
Variable evalAction : Action -> list byte + error.


End ProxyClaims.


(** C2 as stated fails: a request served on a direct connection succeeds and
    leaves no line on the log. *)
Lemma C2_counterexample_success_is_silent :
  exists w',
    serve NoAction rejectActions evalNoAction (direct fastLink) 0 getRoot = Some w'
    /\ writeCalls (history w') = [(0 + readyAfter, make_bytes size, size, None)]
    /\ logLines (history w') = []
    /\ List.length (logLines (history w')) <> 1%nat.
Proof.
  eexists. split; [apply serve_run; reflexivity|].
  rewrite rootHandler_run.
  rewrite write_before_deadline;
    [ | reflexivity | rewrite sample_readyAfter; intros E; discriminate E ].
  cbn [wr_conn wr_n wr_err wr_elapsed now conn history outcomeLog app].
  split; [reflexivity|]. split; [reflexivity|].
  cbn. discriminate.
Qed.

(** ** The two failure paths *)

Section FailurePaths.
Context {C : Type} {RW : ResponseWriter C} {MC : Machine}.
Variable Tmpl : Type.
Variable tParse : string -> list byte -> Tmpl + error.
Variable tExecute : Tmpl -> M C (option error).

(** C4: whatever the template package does, the handler fails in two ways
    only.  When [Parse] returns an error, the handler logs it and returns:
    [Execute] is not called and the connection is untouched.  When
    [Execute] returns an error, the handler logs it and returns: the world
    is the one [Execute] left, with that one line more on the log, so
    nothing is written again or instead.  Otherwise nothing is logged. *)
Theorem C4_two_terminal_failure_paths (r : Request) (w : World C) :
  match tParse "page"%string (bytes_to_string (make_bytes size)) with
  | inr e =>
      run (handler Tmpl tParse tExecute r) w
      = logged (parsed w (Some e)) ("error parsing template: " ++ e)
      /\ conn (run (handler Tmpl tParse tExecute r) w) = conn w
      /\ writeCalls (history (run (handler Tmpl tParse tExecute r) w))
         = writeCalls (history w)
  | inl t =>
      match tExecute t (parsed w None) with
      | (Some e, w2) =>
          run (handler Tmpl tParse tExecute r) w
          = logged w2 ("error writing: " ++ e)
      | (None, w2) =>
          run (handler Tmpl tParse tExecute r) w = w2
      end
  end.
Proof.
  rewrite handler_run. unfold bytes_to_string.
  destruct (tParse "page"%string (make_bytes size)) as [t|e].
  - destruct (tExecute t (parsed w None)) as [[e|] w2]; reflexivity.
  - split; [reflexivity|]. split; [reflexivity|].
    unfold logged, parsed. cbn [history now conn].
    rewrite !writeCalls_app. cbn [writeCalls flat_map app].
    now rewrite !app_nil_r.
Qed.
End FailurePaths.

(** ** The routing table, the listen address and the proxy configuration *)

(** C6 as stated fails: a [POST] request for [/upload], with a body, is
    routed to the handler registered for "/" like a [GET] for the root. *)
Lemma C6_counterexample_post_is_served :
  exists lg srv,
    main (C := Conn) NoAction rejectActions evalNoAction Dockerfile.argv
    = Some (lg, srv)
    /\ Method postUpload = "POST"%string
    /\ Method postUpload <> "GET"%string
    /\ Path postUpload <> "/"%string
    /\ Body postUpload <> []
    /\ http.route (Handler srv) postUpload
       = http.Routed (http.mkEntry "/"%string
                        (rootHandler NoAction rejectActions evalNoAction))
    /\ http.route (Handler srv) postUpload = http.route (Handler srv) getRoot.
Proof.
  eexists. eexists. split; [apply main_starts|].
  cbn [Handler].
  split; [reflexivity|]. split; [discriminate|]. split; [discriminate|].
  split; [discriminate|].
  rewrite !route_root by reflexivity. split; reflexivity.
Qed.

Section ServerClaims.
Context {C : Type} {RW : ResponseWriter C} {MC : Machine}.
Variable Action : Type.
Variable parseActions : string -> list byte -> nat -> list (Node Action) + error.
Variable evalAction : Action -> list byte + error.

Let rootH := rootHandler (C := C) Action parseActions evalAction.
Let main' := main (C := C) Action parseActions evalAction.

(** C6, as amended: [main] registers one pattern only, "/", and no other
    route; that route is not for [GET] only nor for the root only: a request
    whose path is in canonical form is given to the root handler whatever
    its method, its host and its body; the handler does the same for all
    requests, it never reads the request or its body. *)
Theorem C6_single_route_for_all_requests (args : list string) (r : Request) :
  cleanPath (Path r) = Path r ->
  exists lg srv,
    main' args = Some (lg, srv)
    /\ map http.pattern (Handler srv) = ["/"%string]
    /\ http.route (Handler srv) r = http.Routed (http.mkEntry "/"%string rootH)
    /\ (forall r1 r2 : Request, rootH r1 = rootH r2).
Proof.
  intros P. eexists. eexists. split; [apply main_starts|].
  cbn [Handler map http.pattern].
  split; [reflexivity|].
  split; [apply route_root, P|].
  intros r1 r2. unfold rootH, rootHandler, handler. reflexivity.
Qed.

(** C9: whatever the command line, [main] starts a server whose [Addr] is
    the constant ":8080", so that [ListenAndServe] binds TCP port 8080; that
    holds for the arguments of the image's entrypoint, [--port 8080], as for
    any others, and 8080 is the port the image exposes. *)
Theorem C9_listens_on_8080 (args : list string) :
  exists lg srv,
    main' args = Some (lg, srv)
    /\ Addr srv = ":8080"%string
    /\ listenPort srv = Some 8080
    /\ main' args = main' Dockerfile.argv
    /\ Dockerfile.argv = ["/go/bin/web-app"; "--port"; "8080"]%string
    /\ Dockerfile.EXPOSE = 8080.
Proof.
  eexists. eexists. split; [apply main_starts|].
  cbn [Addr]. repeat split; reflexivity.
Qed.
End ServerClaims.

(** C7: for the location "/", the proxy sets [X-Forwarded-For] to the
    address of the client and [Host] to the [Host] header of its request on
    what it passes to the backend, and its connect, read and send timeouts
    are two seconds each. *)
Theorem C7_proxy_headers_and_timeouts (remote_addr http_host : string) :
  let loc := nginx.location "/" nginx.conf in
  nginx.setHeaders loc remote_addr http_host
  = [("X-Forwarded-For", remote_addr); ("Host", http_host)]%string
  /\ nginx.timeout "proxy_connect_timeout" loc = Some (2 * time.Second)
  /\ nginx.timeout "proxy_read_timeout" loc = Some (2 * time.Second)
  /\ nginx.timeout "proxy_send_timeout" loc = Some (2 * time.Second).
Proof.
  cbv zeta. repeat split; reflexivity.
Qed.

(** ** The claims at the repository's own values *)

(** A connection that nobody cuts takes the whole buffer. *)
Lemma direct_write_ok (link t0 : Z) :
  wr_err (theWrite (mkWorld t0 (direct link) [])) = None.
Proof.
  rewrite theWrite_conn. unfold connWrite.
  change (cutoff (direct link)) with (@None Z). reflexivity.
Qed.

Lemma direct_run_succeeds (r : Request) :
  succeeded (mkWorld 0 (direct fastLink) [])
            (run (rootHandler NoAction rejectActions evalNoAction r)
                 (mkWorld 0 (direct fastLink) [])).
Proof. apply succeeded_iff, direct_write_ok. Qed.



(** C6, as amended, at a [POST] for [/upload]. *)
Lemma C6_witness_post_upload :
  cleanPath (Path postUpload) = Path postUpload
  /\ exists lg srv,
       main (C := Conn) NoAction rejectActions evalNoAction Dockerfile.argv
       = Some (lg, srv)
       /\ map http.pattern (Handler srv) = ["/"%string]
       /\ http.route (Handler srv) postUpload
          = http.Routed (http.mkEntry "/"%string
                           (rootHandler NoAction rejectActions evalNoAction))
       /\ (forall r1 r2 : Request,
              rootHandler (C := Conn) NoAction rejectActions evalNoAction r1
              = rootHandler NoAction rejectActions evalNoAction r2).
Proof.
  split; [reflexivity|].
  apply (C6_single_route_for_all_requests
           NoAction rejectActions evalNoAction Dockerfile.argv postUpload).
  reflexivity.
Defined.

(** C5 on a direct connection. *)
Lemma C5_witness_direct_connection :
  succeeded (mkWorld 0 (direct fastLink) [])
            (run (rootHandler NoAction rejectActions evalNoAction getRoot)
                 (mkWorld 0 (direct fastLink) []))
  /\ bodyWritten (history (run (rootHandler NoAction rejectActions evalNoAction getRoot)
                               (mkWorld 0 (direct fastLink) [])))
     = bodyWritten [] ++ make_bytes size
  /\ len (make_bytes size) = 900 * 1000 * 1000
  /\ 900 * 1000 * 1000 = 900000000.
Proof.
  split; [apply direct_run_succeeds|].
  apply (C5_body_has_fixed_size NoAction rejectActions evalNoAction getRoot
           (mkWorld 0 (direct fastLink) [])).
  apply direct_run_succeeds.
Defined.

(** C10 on a direct connection. *)
Lemma C10_witness_direct_connection :
  succeeded (mkWorld 0 (direct fastLink) [])
            (run (rootHandler NoAction rejectActions evalNoAction getRoot)
                 (mkWorld 0 (direct fastLink) []))
  /\ exists body,
       bodyWritten (history (run (rootHandler NoAction rejectActions evalNoAction getRoot)
                                 (mkWorld 0 (direct fastLink) [])))
       = bodyWritten [] ++ body
       /\ len body = size
       /\ Forall (fun b => b = x00) body.
Proof.
  split; [apply direct_run_succeeds|].
  apply (C10_body_is_all_zero NoAction rejectActions evalNoAction getRoot
           (mkWorld 0 (direct fastLink) [])).
  apply direct_run_succeeds.
Defined.

(** * Further properties of the code the backend calls *)

(** ** [strings.Index] *)

Lemma HasPrefix_iff (p s : list byte) :
  HasPrefix s p = true <-> exists rest, s = p ++ rest.
Proof.
  revert s. induction p as [|b p IH]; intros s.
  - split; [intros _; exists s; reflexivity|intros _; destruct s; reflexivity].
  - destruct s as [|c s]; cbn [HasPrefix].
    + split; [discriminate|intros [rest E]; discriminate E].
    + rewrite andb_true_iff, IH. split.
      * intros [E [rest ->]]. apply byte_dec_bl in E. subst c.
        exists rest. reflexivity.
      * intros [rest E]. injection E as -> ->. split.
        -- apply byte_dec_lb. reflexivity.
        -- exists rest. reflexivity.
Qed.

Lemma Index_Some (sep s : list byte) (i : nat) :
  Index s sep = Some i ->
  (exists pre post, s = pre ++ sep ++ post /\ List.length pre = i)
  /\ (forall pre post, s = pre ++ sep ++ post -> (i <= List.length pre)%nat).
Proof.
  revert i. induction s as [|a s IH]; intros i.
  - cbn [Index]. destruct (HasPrefix [] sep) eqn:P; [|discriminate].
    intros [= <-]. apply HasPrefix_iff in P. destruct P as [rest E]. split.
    + exists [], rest. split; [exact E|reflexivity].
    + intros pre post _. apply Nat.le_0_l.
  - cbn [Index]. destruct (HasPrefix (a :: s) sep) eqn:P.
    + intros [= <-]. apply HasPrefix_iff in P. destruct P as [rest E]. split.
      * exists [], rest. split; [exact E|reflexivity].
      * intros pre post _. apply Nat.le_0_l.
    + destruct (Index s sep) as [j|] eqn:J; [|discriminate].
      cbn [option_map]. intros [= <-].
      destruct (IH j eq_refl) as [[pre [post [E L]]] Min]. split.
      * exists (a :: pre), post. split; [cbn [app]; now rewrite E|cbn; now rewrite L].
      * intros [|a' pre'] post' E'.
        -- exfalso. cbn [app] in E'.
           assert (T : HasPrefix (a :: s) sep = true)
             by (apply HasPrefix_iff; exists post'; exact E').
           rewrite T in P. discriminate.
        -- cbn [app] in E'. injection E' as _ E'. cbn [List.length].
           apply le_n_S, (Min pre' post'), E'.
Qed.

Lemma Index_None (sep s : list byte) :
  Index s sep = None -> forall pre post, s <> pre ++ sep ++ post.
Proof.
  induction s as [|a s IH]; cbn [Index].
  - destruct (HasPrefix [] sep) eqn:P; [discriminate|].
    intros _ pre post E. destruct pre as [|a' pre]; [|discriminate E].
    assert (T : HasPrefix [] sep = true) by (apply HasPrefix_iff; exists post; exact E).
    rewrite T in P. discriminate.
  - destruct (HasPrefix (a :: s) sep) eqn:P; [discriminate|].
    destruct (Index s sep) as [j|] eqn:J; [discriminate|].
    intros _ [|a' pre] post E.
    + assert (T : HasPrefix (a :: s) sep = true)
        by (apply HasPrefix_iff; exists post; exact E).
      rewrite T in P. discriminate.
    + cbn [app] in E. injection E as _ E. exact (IH eq_refl pre post E).
Qed.

(** X1: [Index s sep] is the offset of the first occurrence of [sep] in
    [s]: when it is [Some i], [sep] occurs at offset [i] and at no smaller
    offset; when it is [None], [sep] occurs nowhere in [s]. *)
Theorem X1_Index_first_occurrence (s sep : list byte) :
  match Index s sep with
  | Some i =>
      (exists pre post, s = pre ++ sep ++ post /\ List.length pre = i)
      /\ (forall pre post, s = pre ++ sep ++ post -> (i <= List.length pre)%nat)
  | None => forall pre post, s <> pre ++ sep ++ post
  end.
Proof.
  destruct (Index s sep) as [i|] eqn:E.
  - apply Index_Some, E.
  - apply Index_None, E.
Qed.

(** ** [text/template]: parsing and executing any text *)

Section ExecuteFacts.
Context {C : Type} {RW : ResponseWriter C} {MC : Machine}.
Variable Action : Type.
Variable parseActions : string -> list byte -> nat -> list (Node Action) + error.
Variable evalAction : Action -> list byte + error.

(** A [Write] call without error took all the bytes it was offered. *)
Lemma Write_whole (c : C) (t : Z) (p : list byte) :
  wr_err (Write c t p) = None -> wr_n (Write c t p) = len p.
Proof.
  intros E.
  pose proof (Write_n_range c t p) as R.
  pose proof (Write_short c t p) as S.
  destruct (Z.eq_dec (wr_n (Write c t p)) (len p)) as [Q|N]; [exact Q|].
  exfalso. apply S; [lia|exact E].
Qed.

(** X2: a text without left delimiter parses, under any name, to a template
    whose execution gives the text back: it makes one [Write] call at most
    (none for the empty text, which leaves the world as it was), and when it
    returns no error the bytes the writer accepted are the text, whole and
    in order. *)
Theorem X2_plain_text_round_trip (name : string) (text : list byte) (w : World C) :
  Index text leftDelim = None ->
  exists t,
    Parse Action parseActions (New Action name) text = inl t
    /\ Name t = name
    /\ (text = [] -> run (Execute Action evalAction t) w = w)
    /\ (List.length (writeCalls (history (run (Execute Action evalAction t) w)))
        <= List.length (writeCalls (history w)) + 1)%nat
    /\ (fst (Execute Action evalAction t w) = None ->
        bodyWritten (history (run (Execute Action evalAction t) w))
        = bodyWritten (history w) ++ text).
Proof.
  intros I. unfold Parse. rewrite I. cbn [New Name].
  destruct text as [|b text].
  - eexists. split; [reflexivity|]. split; [reflexivity|].
    unfold run, Execute. cbn [Root walk ret snd fst].
    split; [reflexivity|]. split; [lia|].
    intros _. symmetry. apply app_nil_r.
  - eexists. split; [reflexivity|]. split; [reflexivity|].
    unfold run. rewrite Execute_text. cbn [fst snd history].
    split; [discriminate|]. split.
    + rewrite writeCalls_app, length_app. cbn. lia.
    + intros E. rewrite bodyWritten_app. f_equal.
      cbn [bodyWritten flat_map]. rewrite app_nil_r.
      rewrite (Write_whole _ _ _ E). apply firstn_len.
Qed.

(** The calls [Execute] adds, seen from its result: all but the last went
    through, all went through when the result is nil, and a last call that
    failed gives the result. *)
Lemma walk_calls (nodes : list (Node Action)) (w : World C) :
  exists calls : list (Z * list byte * Z * option error),
    writeCalls (history (snd (walk Action evalAction nodes w)))
    = writeCalls (history w) ++ calls
    /\ Forall (fun c => snd c = None) (removelast calls)
    /\ (fst (walk Action evalAction nodes w) = None ->
        Forall (fun c => snd c = None) calls)
    /\ (forall pre c e,
          calls = pre ++ [c] -> snd c = Some e ->
          fst (walk Action evalAction nodes w) = Some e).
Proof.
  revert w.
  assert (Step : forall (rest : list (Node Action)) (p : list byte) (w : World C),
             (forall w1, exists calls : list (Z * list byte * Z * option error),
                 writeCalls (history (snd (walk Action evalAction rest w1)))
                 = writeCalls (history w1) ++ calls
                 /\ Forall (fun c => snd c = None) (removelast calls)
                 /\ (fst (walk Action evalAction rest w1) = None ->
                     Forall (fun c => snd c = None) calls)
                 /\ (forall pre c e,
                       calls = pre ++ [c] -> snd c = Some e ->
                       fst (walk Action evalAction rest w1) = Some e)) ->
             let m := bind (wWrite p)
                           (fun r => match wr_err r with
                                     | Some e => ret (Some e)
                                     | None => walk Action evalAction rest
                                     end) in
             exists calls : list (Z * list byte * Z * option error),
               writeCalls (history (snd (m w))) = writeCalls (history w) ++ calls
               /\ Forall (fun c => snd c = None) (removelast calls)
               /\ (fst (m w) = None -> Forall (fun c => snd c = None) calls)
               /\ (forall pre c e,
                     calls = pre ++ [c] -> snd c = Some e -> fst (m w) = Some e)).
  { intros rest p w IH. cbv zeta. unfold bind, wWrite.
    destruct (wr_err (Write (conn w) (now w) p)) as [e|] eqn:E.
    - exists [(now w, p, wr_n (Write (conn w) (now w) p), Some e)].
      unfold ret. cbn [fst snd history removelast].
      split; [rewrite writeCalls_app; reflexivity|].
      split; [constructor|]. split; [discriminate|].
      intros [|x pre] c e' Q F.
      + injection Q as <-. cbn [snd] in F. congruence.
      + destruct pre; discriminate Q.
    - match goal with
      | |- context [walk Action evalAction rest ?w1] =>
          destruct (IH w1) as [calls [W [L [N F]]]]
      end.
      exists ((now w, p, wr_n (Write (conn w) (now w) p), @None error) :: calls).
      split.
      { rewrite W. cbn [history]. rewrite writeCalls_app.
        cbn [writeCalls flat_map app]. now rewrite <- app_assoc. }
      split.
      { destruct calls as [|c calls]; [constructor|].
        change (removelast (?x :: c :: calls)) with (x :: removelast (c :: calls)).
        constructor; [reflexivity|exact L]. }
      split.
      { intros Q. constructor; [reflexivity|exact (N Q)]. }
      intros [|x pre] c e' Q S.
      + injection Q as <- _. cbn [snd] in S. discriminate S.
      + cbn [app] in Q. injection Q as _ Q. exact (F pre c e' Q S). }
  induction nodes as [|[text|a] rest IH]; intros w.
  - exists []. cbn [walk ret fst snd removelast].
    split; [symmetry; apply app_nil_r|]. split; [constructor|].
    split; [constructor|].
    intros pre c e Q. destruct pre; discriminate Q.
  - cbn [walk]. apply (Step rest text w IH).
  - cbn [walk]. destruct (evalAction a) as [out|e].
    + apply (Step rest out w IH).
    + exists []. unfold ret. cbn [fst snd removelast].
      split; [symmetry; apply app_nil_r|]. split; [constructor|].
      split; [discriminate|].
      intros pre c e' Q. destruct pre; discriminate Q.
Qed.

(** X3: [Execute] stops at the first failure.  Of the [Write] calls one
    execution makes, on any template and any writer, every call but the
    last returned no error; when [Execute] returns nil they all did; and
    when the last call failed, its error is what [Execute] returns: no
    [Write] call follows a failed one. *)
Theorem X3_Execute_stops_at_first_failure (t : Template Action) (w : World C) :
  exists calls : list (Z * list byte * Z * option error),
    writeCalls (history (run (Execute Action evalAction t) w))
    = writeCalls (history w) ++ calls
    /\ Forall (fun c => snd c = None) (removelast calls)
    /\ (fst (Execute Action evalAction t w) = None ->
        Forall (fun c => snd c = None) calls)
    /\ (forall pre c e,
          calls = pre ++ [c] -> snd c = Some e ->
          fst (Execute Action evalAction t w) = Some e).
Proof. unfold run, Execute. apply walk_calls. Qed.
End ExecuteFacts.

(** X2 on a two-byte text and a direct connection. *)
Lemma X2_witness_two_bytes :
  Index [x68; x69] leftDelim = None
  /\ exists t,
       Parse NoAction rejectActions (New NoAction "page") [x68; x69] = inl t
       /\ Name t = "page"%string
       /\ ([x68; x69] = [] ->
           run (Execute NoAction evalNoAction t) (mkWorld 0 (direct fastLink) [])
           = mkWorld 0 (direct fastLink) [])
       /\ (List.length (writeCalls (history
             (run (Execute NoAction evalNoAction t) (mkWorld 0 (direct fastLink) []))))
           <= List.length (writeCalls (@nil Event)) + 1)%nat
       /\ (fst (Execute NoAction evalNoAction t (mkWorld 0 (direct fastLink) [])) = None ->
           bodyWritten (history
             (run (Execute NoAction evalNoAction t) (mkWorld 0 (direct fastLink) [])))
           = bodyWritten [] ++ [x68; x69]).
Proof.
  split; [reflexivity|].
  apply (X2_plain_text_round_trip NoAction rejectActions evalNoAction "page"
           [x68; x69] (mkWorld 0 (direct fastLink) [])).
  reflexivity.
Defined.

(** ** The lines of the log *)

Lemma Sprintf_cons (c : ascii) (format arg : string) :
  c <> "%"%char -> Sprintf (String c format) arg = String c (Sprintf format arg).
Proof.
  intros N.
  destruct c as [[] [] [] [] [] [] [] []]; try reflexivity.
  exfalso. apply N. reflexivity.
Qed.

(** X4: a format whose only percent sign is that of its one [%s] verb is
    printed as the literal text before the verb, then the operand, then the
    literal text after the verb. *)
Theorem X4_Sprintf_literal_prefix (pre post arg : string) :
  hasChar "%" pre = false ->
  hasChar "%" post = false ->
  Sprintf (pre ++ "%s" ++ post) arg = (pre ++ arg ++ post)%string.
Proof.
  intros N _. induction pre as [|c pre IH].
  - reflexivity.
  - cbn [hasChar] in N. apply orb_false_iff in N. destruct N as [Nc N].
    cbn [String.append]. rewrite Sprintf_cons.
    + f_equal. apply IH, N.
    + apply Ascii.eqb_neq, Nc.
Qed.

(** X4 on the format of the write error. *)
Lemma X4_witness_write_error_line :
  hasChar "%" "error writing: " = false
  /\ hasChar "%" "" = false
  /\ Sprintf ("error writing: " ++ "%s" ++ "") "write: broken pipe"
     = ("error writing: " ++ "write: broken pipe" ++ "")%string.
Proof.
  split; [reflexivity|]. split; [reflexivity|].
  apply (X4_Sprintf_literal_prefix "error writing: " "" "write: broken pipe");
    reflexivity.
Defined.

(** ** The routing table of [ServeMux] *)

Section MuxFacts.
Variable H : Type.

Let qualifies (e : http.muxEntry H) (path : string) : bool :=
  http.endsWithSlash (http.pattern e) && String.prefix (http.pattern e) path.

Lemma registered_iff (mux : http.ServeMux H) (pat : string) :
  http.registered H mux pat = true
  <-> exists e, In e mux /\ http.pattern e = pat.
Proof.
  unfold http.registered. rewrite existsb_exists.
  split; intros [e [I E]]; exists e; (split; [exact I|]).
  - apply String.eqb_eq, E.
  - apply String.eqb_eq, E.
Qed.

(** X6: a registration keeps the table well formed: when the patterns of
    the table are pairwise different and none is empty, they still are once
    one more pattern is registered. *)
Theorem X6_HandleFunc_keeps_patterns_distinct
        (mux mux' : http.ServeMux H) (pat : string) (hd : H) :
  NoDup (map http.pattern mux) ->
  ~ In ""%string (map http.pattern mux) ->
  http.HandleFunc mux pat hd = Some mux' ->
  NoDup (map http.pattern mux')
  /\ ~ In ""%string (map http.pattern mux')
  /\ map http.pattern mux' = map http.pattern mux ++ [pat].
Proof.
  intros ND NE. unfold http.HandleFunc.
  destruct (String.eqb pat "") eqn:E0; [discriminate|].
  destruct (http.registered H mux pat) eqn:R; [discriminate|].
  intros [= <-]. rewrite map_app. cbn [map http.pattern].
  split; [|split; [|reflexivity]].
  - apply NoDup_app; [exact ND|constructor; [intros []|constructor]|].
    intros p I [E|[]]. subst p. apply in_map_iff in I. destruct I as [e [Ep Ie]].
    assert (T : http.registered H mux pat = true)
      by (apply registered_iff; exists e; split; assumption).
    rewrite T in R. discriminate.
  - intros I. apply in_app_or in I. destruct I as [I|[I|[]]]; [exact (NE I)|].
    subst pat. discriminate E0.
Qed.

Lemma longestPrefix_spec (mux : http.ServeMux H) (path : string)
      (best : option (http.muxEntry H)) :
  (forall b, best = Some b -> qualifies b path = true) ->
  match http.longestPrefix H mux path best with
  | Some e =>
      qualifies e path = true
      /\ (In e mux \/ best = Some e)
      /\ (forall e', In e' mux -> qualifies e' path = true ->
                     (String.length (http.pattern e') <= String.length (http.pattern e))%nat)
      /\ (forall b, best = Some b ->
                    (String.length (http.pattern b) <= String.length (http.pattern e))%nat)
  | None => best = None /\ forall e', In e' mux -> qualifies e' path = false
  end.
Proof.
  revert best. induction mux as [|e rest IH]; intros best B.
  - cbn [http.longestPrefix]. destruct best as [b|].
    + split; [apply B; reflexivity|]. split; [right; reflexivity|].
      split; [intros e' []|]. intros b' [= <-]. apply Nat.le_refl.
    + split; [reflexivity|intros e' []].
  - cbn [http.longestPrefix].
    fold (qualifies e path).
    destruct (qualifies e path) eqn:Q; cbn [andb].
    + destruct (match best with
                | Some b => (String.length (http.pattern b)
                             <? String.length (http.pattern e))%nat
                | None => true
                end) eqn:Better.
      * specialize (IH (Some e)).
        destruct (http.longestPrefix H rest path (Some e)) as [e2|].
        -- destruct IH as [Q2 [I2 [M2 L2]]]; [intros b [= <-]; exact Q|].
           split; [exact Q2|]. split.
           { left. destruct I2 as [I2|[= <-]]; [right; exact I2|left; reflexivity]. }
           split.
           { intros e' [E|I'] Q'; [subst e'; apply (L2 e eq_refl)|apply (M2 e' I' Q')]. }
           intros b ->. apply Nat.ltb_lt in Better.
           specialize (L2 e eq_refl). lia.
        -- destruct IH as [Contra _]; [intros b [= <-]; exact Q|discriminate].
      * destruct best as [b|]; [|discriminate]. apply Nat.ltb_ge in Better.
        specialize (IH (Some b) B).
        destruct (http.longestPrefix H rest path (Some b)) as [e2|].
        -- destruct IH as [Q2 [I2 [M2 L2]]].
           split; [exact Q2|]. split.
           { destruct I2 as [I2|I2]; [left; right; exact I2|right; exact I2]. }
           split.
           { intros e' [E|I'] Q'; [subst e'|apply (M2 e' I' Q')].
             specialize (L2 b eq_refl). lia. }
           exact L2.
        -- destruct IH as [Contra _]. discriminate.
    + specialize (IH best B).
      destruct (http.longestPrefix H rest path best) as [e2|].
      * destruct IH as [Q2 [I2 [M2 L2]]].
        split; [exact Q2|]. split.
        { destruct I2 as [I2|I2]; [left; right; exact I2|right; exact I2]. }
        split; [|exact L2].
        intros e' [E|I'] Q'; [subst e'; congruence|apply (M2 e' I' Q')].
      * destruct IH as [-> N]. split; [reflexivity|].
        intros e' [E|I']; [subst e'; exact Q|apply (N e' I')].
Qed.

(** X8: once "/" is registered, whatever else the table holds, no request
    whose path starts with a slash is left to the not-found handler. *)
Theorem X8_root_pattern_catches_all
        (mux : http.ServeMux H) (hd : H) (host tail : string) :
  In (http.mkEntry "/"%string hd) mux ->
  exists e, http.handler mux host (String "/" tail) = Some e /\ In e mux.
Proof.
  intros I.
  assert (M : forall p, (exists e, http.match_ mux p = Some e /\ In e mux)
                        \/ http.match_ mux p = None).
  { intros p. unfold http.match_, http.exactEntry.
    destruct (find (fun e => String.eqb (http.pattern e) p) mux) as [e|] eqn:F.
    - left. exists e. split; [reflexivity|apply (find_some _ _ F)].
    - pose proof (longestPrefix_spec mux p None) as L.
      destruct (http.longestPrefix H mux p None) as [e|]; [|right; reflexivity].
      left. exists e. split; [reflexivity|].
      destruct L as [_ [[Ie|Ie] _]]; [discriminate|exact Ie|discriminate Ie]. }
  assert (R : exists e, http.match_ mux (String "/" tail) = Some e /\ In e mux).
  { destruct (M (String "/" tail)) as [Found|N]; [exact Found|exfalso].
    unfold http.match_, http.exactEntry in N.
    destruct (find (fun e => String.eqb (http.pattern e) (String "/" tail)) mux);
      [discriminate|].
    pose proof (longestPrefix_spec mux (String "/" tail) None) as L.
    rewrite N in L. destruct L as [_ L]; [discriminate|].
    specialize (L _ I). unfold qualifies in L. cbn [http.pattern] in L.
    rewrite prefix_slash in L. discriminate L. }
  unfold http.handler. destruct (http.hosts H mux).
  - destruct (M (host ++ String "/" tail)%string) as [[e [E Ie]]|N].
    + rewrite E. exists e. split; [reflexivity|exact Ie].
    + rewrite N. exact R.
  - exact R.
Qed.
End MuxFacts.

(** X6 on the table of [main]. *)
Lemma X6_witness_second_pattern :
  NoDup (map http.pattern [http.mkEntry "/"%string 1])
  /\ ~ In ""%string (map http.pattern [http.mkEntry "/"%string 1])
  /\ http.HandleFunc [http.mkEntry "/"%string 1] "/health" 2
     = Some [http.mkEntry "/"%string 1; http.mkEntry "/health"%string 2]
  /\ NoDup (map http.pattern
              [http.mkEntry "/"%string 1; http.mkEntry "/health"%string 2]).
Proof.
  assert (ND : NoDup (map http.pattern [http.mkEntry "/"%string 1])).
  { constructor; [intros []|constructor]. }
  assert (NE : ~ In ""%string (map http.pattern [http.mkEntry "/"%string 1])).
  { intros [E|[]]. discriminate E. }
  split; [exact ND|]. split; [exact NE|]. split; [reflexivity|].
  apply (X6_HandleFunc_keeps_patterns_distinct Z
           [http.mkEntry "/"%string 1]
           [http.mkEntry "/"%string 1; http.mkEntry "/health"%string 2]
           "/health" 2 ND NE eq_refl).
Defined.

(** X8 on a table with a second, longer pattern. *)
Lemma X8_witness_two_patterns :
  In (http.mkEntry "/"%string 1)
     [http.mkEntry "/api/"%string 2; http.mkEntry "/"%string 1]
  /\ exists e,
       http.handler [http.mkEntry "/api/"%string 2; http.mkEntry "/"%string 1]
                    "localhost" (String "/" "index.html") = Some e
       /\ In e [http.mkEntry "/api/"%string 2; http.mkEntry "/"%string 1].
Proof.
  assert (I : In (http.mkEntry "/"%string 1)
                 [http.mkEntry "/api/"%string 2; http.mkEntry "/"%string 1]).
  { right. left. reflexivity. }
  split; [exact I|].
  apply (X8_root_pattern_catches_all Z _ 1 "localhost" "index.html" I).
Defined.

(** ** Listen addresses *)











(** ** The time a request takes *)

Section DurationFacts.
Context {C : Type} {RW : ResponseWriter C} {MC : Machine}.
Variable Action : Type.
Variable parseActions : string -> list byte -> nat -> list (Node Action) + error.
Variable evalAction : Action -> list byte + error.

(** X12: whatever the writer and the machine, a run of the handler lasts
    ten seconds at least: the [Write] call it adds to the history is made
    ten seconds or more after the handler was called, and the handler
    returns no earlier than that call. *)
Theorem X12_handler_takes_ten_seconds_at_least (r : Request) (w : World C) :
  exists t n err,
    writeCalls (history (run (rootHandler Action parseActions evalAction r) w))
    = writeCalls (history w) ++ [(t, make_bytes size, n, err)]
    /\ now w + 10 * time.Second <= t
    /\ t <= now (run (rootHandler Action parseActions evalAction r) w).
Proof.
  rewrite rootHandler_run. cbn [now history].
  exists (now w + readyAfter), (wr_n (theWrite w)), (wr_err (theWrite w)).
  split.
  - rewrite !writeCalls_app. f_equal. cbn [writeCalls flat_map app].
    destruct (wr_err (theWrite w)); reflexivity.
  - pose proof readyAfter_ge_sleep as HR.
    pose proof (Write_elapsed (conn w) (now w + readyAfter) (make_bytes size)) as HE.
    fold (theWrite w) in HE. rewrite sleepDuration_seconds in HR. lia.
Qed.
End DurationFacts.

(** ** The wiring of the deployment *)

Section WiringFacts.
Context {C : Type} {RW : ResponseWriter C} {MC : Machine}.
Variable Action : Type.
Variable parseActions : string -> list byte -> nat -> list (Node Action) + error.
Variable evalAction : Action -> list byte + error.

(** X14: the pieces of the deployment name one port for the backend.
    Whatever its command line, the server binds the port that the proxy
    passes the requests of its location "/" to, on the host "goservice";
    that port is the one the image exposes and the one the composition
    opens on the service of that name, which the proxy's service depends
    on; and the proxy's own service opens the port the proxy listens on. *)
Theorem X14_deployment_ports_agree (args : list string) :
  exists lg srv port,
    main (C := C) Action parseActions evalAction args = Some (lg, srv)
    /\ listenPort srv = Some port
    /\ proxyPass (nginx.location "/" nginx.conf) = Some ("goservice"%string, port)
    /\ Dockerfile.EXPOSE = port
    /\ (exists svc,
          compose.service "goservice" = Some svc
          /\ map compose.containerPort (compose.ports svc) = [Some port])
    /\ (exists px,
          compose.service "nginx" = Some px
          /\ In "goservice"%string (compose.depends_on px)
          /\ map compose.containerPort (compose.ports px) = [proxyListen nginx.conf]).
Proof.
  eexists. eexists. exists 8080. split; [apply main_starts|].
  split; [reflexivity|]. split; [reflexivity|]. split; [reflexivity|].
  split.
  - eexists. split; reflexivity.
  - eexists. split; [reflexivity|]. split; [left; reflexivity|reflexivity].
Qed.
End WiringFacts.
